(** * Asset-Management: vehicle lifecycle and inspection engine

    A shallow embedding of the decision logic of the repository:
    - [src/services/InspectionService.ts]: odometer validation, the overall
      condition assessor, the damage-report constructor, the submission of
      an inspection and its review;
    - [src/services/VehicleService.ts]: the service-interval computation and
      the vehicle history with its trips and drivers;
    - [src/pages/VehicleCheckout.tsx] and [src/pages/VehicleCheckin.tsx]: the
      checkout and checkin handlers together with the effects, the buttons
      and the render guards of their pages;
    - [hooks/useVehicles]: the updates of a vehicle.

    Numbers.  Odometer readings, mileages and fuel percentages are JavaScript
    numbers that the application only ever fills with integers (the data model
    calls the odometer a non-negative integer); they are modelled in [Z].  A
    number that may be [undefined] or [NaN] is an [option Z], [None] standing
    for both, since the code only tests such values with [||] and with
    comparisons, which treat the two alike. *)

From Stdlib Require Import ZArith List String Ascii Bool Lia DecimalString.
From Stdlib Require QArith.QArith_base QArith.Qround DecimalPos.
From stdpp Require Import base option gmap strings.
Import ListNotations.

Local Open Scope string_scope.
Local Open Scope Z_scope.

(** ** JavaScript primitives used by the sources *)

Module JS.

(** [`${n}`] for an integer-valued number. *)
Definition numberToString (n : Z) : string :=
  NilZero.string_of_int (Z.to_int n).

(** [x || 0] for a number that may be [undefined] or [NaN]. *)
Definition orZero (x : option Z) : Z :=
  match x with
  | Some n => n
  | None => 0
  end.

(** [!s] for a string: only the empty string is falsy. *)
Definition falsy (s : string) : bool :=
  match s with
  | EmptyString => true
  | String _ _ => false
  end.

(** [a < b] on numbers, [false] as soon as one side is [NaN]. *)
Definition lt (a b : option Z) : bool :=
  match a, b with
  | Some x, Some y => x <? y
  | _, _ => false
  end.

(** [a - b] on numbers, [NaN] as soon as one side is [NaN]. *)
Definition sub (a b : option Z) : option Z :=
  match a, b with
  | Some x, Some y => Some (x - y)
  | _, _ => None
  end.

End JS.

(** ** src/services/InspectionService.ts *)

Module InspectionService.

(** Modelled from the spec: [DamageReport['severity']] of the missing
    [types/models]; the same four grades appear in the [damageReports]
    entries of the [VehicleInspection] entity. *)
Inductive DamageSeverity : Set :=
| SevMinor | SevModerate | SevMajor | SevCritical.

(** [InspectionData.checklistItems[].status]. *)
Inductive ItemStatus : Set :=
| Pass | Fail | NeedsAttention.

(** [InspectionData.checklistItems[].severity]. *)
Inductive ItemSeverity : Set :=
| ItemLow | ItemMedium | ItemHigh | ItemCritical.

Inductive Condition : Set :=
| Excellent | Good | Fair | Poor | Damaged.

Definition DamageSeverity_eqb (a b : DamageSeverity) : bool :=
  match a, b with
  | SevMinor, SevMinor | SevModerate, SevModerate
  | SevMajor, SevMajor | SevCritical, SevCritical => true
  | _, _ => false
  end.

(** The fields are those of the object literal that [createDamageReport]
    returns. *)
Record DamageReport : Set := mkDamageReport {
  id : string;
  component : string;
  hasDamage : bool;
  severity : option DamageSeverity;
  description : string;
  photos : list string;
  annotations : list string;
  estimatedCost : Z;
  repairRequired : bool;
  reportedAt : Z
}.

Record ChecklistItem : Set := mkChecklistItem {
  item : string;
  status : ItemStatus;
  notes : option string;
  item_severity : option ItemSeverity
}.

(** [damage.severity === s]; an absent severity equals no grade. *)
Definition severityIs (s : DamageSeverity) (damage : DamageReport) : bool :=
  match severity damage with
  | Some s' => DamageSeverity_eqb s' s
  | None => false
  end.

Definition statusIsFail (i : ChecklistItem) : bool :=
  match status i with Fail => true | _ => false end.

Definition statusIsNeedsAttention (i : ChecklistItem) : bool :=
  match status i with NeedsAttention => true | _ => false end.

Definition severityIsCritical (i : ChecklistItem) : bool :=
  match item_severity i with Some ItemCritical => true | _ => false end.

(** [determinOverallCondition], statement by statement; [some] is
    [existsb], [filter] is [List.filter] and [.length] is [length]. *)
Definition determinOverallCondition
    (damages : list DamageReport) (checklistItems : list ChecklistItem)
    : Condition :=
  let hasCriticalDamage := existsb (severityIs SevCritical) damages in
  if hasCriticalDamage then Damaged else
  let hasMajorDamage := existsb (severityIs SevMajor) damages in
  if hasMajorDamage then Poor else
  let failedItems := List.filter statusIsFail checklistItems in
  let criticalFailures := List.filter severityIsCritical failedItems in
  if (0 <? length criticalFailures)%nat then Poor else
  if (3 <? length failedItems)%nat then Fair else
  let hasModerateNeedsAttention :=
    existsb (severityIs SevModerate) damages
    || existsb statusIsNeedsAttention checklistItems in
  if hasModerateNeedsAttention then Fair else
  let hasMinorIssues :=
    existsb (severityIs SevMinor) damages
    || (0 <? length failedItems)%nat in
  if hasMinorIssues then Good else
  Excellent.

(** *** The reference definition of section 4.2 *)

Definition anyDamage (s : DamageSeverity) (damages : list DamageReport) : Prop :=
  exists d, In d damages /\ severity d = Some s.

Definition anyItem (P : ChecklistItem -> Prop) (items : list ChecklistItem) : Prop :=
  exists i, In i items /\ P i.

Definition failed (i : ChecklistItem) : Prop := status i = Fail.

Definition failedCritically (i : ChecklistItem) : Prop :=
  status i = Fail /\ item_severity i = Some ItemCritical.

Definition needsAttention (i : ChecklistItem) : Prop :=
  status i = NeedsAttention.

(** Number of checklist items with status [fail], of any severity. *)
Fixpoint failCount (items : list ChecklistItem) : nat :=
  match items with
  | [] => 0
  | i :: rest =>
      match status i with
      | Fail => S (failCount rest)
      | _ => failCount rest
      end
  end.

(** The rules in strict priority order: rule [n] applies only when
    rules [1] to [n-1] do not. *)
Inductive assessCondition
    (damages : list DamageReport) (items : list ChecklistItem)
    : Condition -> Prop :=
| rule1 :
    anyDamage SevCritical damages ->
    assessCondition damages items Damaged
| rule2 :
    ~ anyDamage SevCritical damages ->
    anyDamage SevMajor damages ->
    assessCondition damages items Poor
| rule3 :
    ~ anyDamage SevCritical damages ->
    ~ anyDamage SevMajor damages ->
    anyItem failedCritically items ->
    assessCondition damages items Poor
| rule4 :
    ~ anyDamage SevCritical damages ->
    ~ anyDamage SevMajor damages ->
    ~ anyItem failedCritically items ->
    (3 < failCount items)%nat ->
    assessCondition damages items Fair
| rule5 :
    ~ anyDamage SevCritical damages ->
    ~ anyDamage SevMajor damages ->
    ~ anyItem failedCritically items ->
    ~ (3 < failCount items)%nat ->
    anyDamage SevModerate damages \/ anyItem needsAttention items ->
    assessCondition damages items Fair
| rule6 :
    ~ anyDamage SevCritical damages ->
    ~ anyDamage SevMajor damages ->
    ~ anyItem failedCritically items ->
    ~ (3 < failCount items)%nat ->
    ~ (anyDamage SevModerate damages \/ anyItem needsAttention items) ->
    anyDamage SevMinor damages \/ anyItem failed items ->
    assessCondition damages items Good
| rule7 :
    ~ anyDamage SevCritical damages ->
    ~ anyDamage SevMajor damages ->
    ~ anyItem failedCritically items ->
    ~ (3 < failCount items)%nat ->
    ~ (anyDamage SevModerate damages \/ anyItem needsAttention items) ->
    ~ (anyDamage SevMinor damages \/ anyItem failed items) ->
    assessCondition damages items Excellent.

(** *** Odometer validation *)

(** The [vehicles] document read by [validateOdometerReading]; only
    [currentOdometer] is consulted, and it may be absent. *)
Record VehicleData : Set := mkVehicleData {
  currentOdometer : option Z
}.

(** The Firestore collaborator: either the call throws, or it answers from
    the [vehicles] collection. *)
Inductive Firestore : Type :=
| Unreachable
| Vehicles (docs : gmap string VehicleData).

Record OdometerValidation : Set := mkOdometerValidation {
  isValid : bool;
  errors : list string;
  warnings : list string
}.

Definition lowerReadingError (currentOdometer : Z) : string :=
  "Reading cannot be lower than current reading ("
    ++ JS.numberToString currentOdometer ++ " km)".

Definition highIncreaseWarning (difference : Z) : string :=
  "Unusually high mileage increase detected ("
    ++ JS.numberToString difference ++ " km)".

Definition validateOdometerReading
    (db : Firestore) (vehicleId : string) (newReading : Z)
    : OdometerValidation :=
  match db with
  | Unreachable =>
      {| isValid := false;
         errors := ["Failed to validate odometer reading"];
         warnings := [] |}
  | Vehicles docs =>
      match docs !! vehicleId with
      | None =>
          {| isValid := false;
             errors := ["Vehicle not found"];
             warnings := [] |}
      | Some vehicleData =>
          let currentOdometer := JS.orZero (currentOdometer vehicleData) in
          let errors :=
            if newReading <? currentOdometer
            then [lowerReadingError currentOdometer] else [] in
          let difference := newReading - currentOdometer in
          let warnings :=
            if 1000 <? difference
            then [highIncreaseWarning difference] else [] in
          {| isValid := (length errors =? 0)%nat;
             errors := errors;
             warnings := warnings |}
      end
  end.

(** *** Damage reports *)

(** [Date.now()] and the random suffix are supplied by the caller. *)
Definition createDamageReport
    (now : Z) (random : string)
    (component : string) (hasDamage : bool)
    (severity : option DamageSeverity)
    (description : option string) (photos : option (list string))
    : DamageReport :=
  {| id := "damage_" ++ JS.numberToString now ++ "_" ++ random;
     component := component;
     hasDamage := hasDamage;
     severity := severity;
     description := default "" description;
     photos := default [] photos;
     annotations := [];
     estimatedCost := 0;
     repairRequired :=
       hasDamage
       && (match severity with
           | Some SevMajor => true
           | _ => false
           end
           || match severity with
              | Some SevCritical => true
              | _ => false
              end);
     reportedAt := now |}.

End InspectionService.

(** ** src/services/VehicleService.ts *)

Module VehicleService.

(** Modelled from the spec: the [Vehicle] of the missing [types/models],
    reduced to the two odometer fields that [getNextServiceInfo] reads. *)
Record Vehicle : Set := mkVehicle {
  nextServiceOdometer : Z;
  currentOdometer : Z
}.

Record NextServiceInfo : Set := mkNextServiceInfo {
  kmUntilService : Z;
  isOverdue : bool;
  daysUntilService : Z
}.

(** [const avgDailyKm = 50]. *)
Definition avgDailyKm : Z := 50.

(** [Math.ceil(a / b)], the quotient taken in the rationals; for integers
    of the size of an odometer reading the rounding of the JavaScript
    division does not change the ceiling. *)
Definition ceilDiv (a b : Z) : Z :=
  Qround.Qceiling
    (QArith_base.Qdiv (QArith_base.inject_Z a) (QArith_base.inject_Z b)).

Definition getNextServiceInfo (vehicle : Vehicle) : NextServiceInfo :=
  let kmUntilService :=
    nextServiceOdometer vehicle - currentOdometer vehicle in
  let isOverdue := kmUntilService <=? 0 in
  let daysUntilService :=
    if isOverdue then 0 else ceilDiv kmUntilService avgDailyKm in
  {| kmUntilService := kmUntilService;
     isOverdue := isOverdue;
     daysUntilService := daysUntilService |}.

End VehicleService.

(** ** More JavaScript: [parseInt] *)

Module JSParse.

(** The ASCII members of [StrWhiteSpaceChar]: TAB, LF, VT, FF, CR, SP. *)
Definition isWhiteSpace (c : ascii) : bool :=
  let n := nat_of_ascii c in
  ((9 <=? n) && (n <=? 13) || (n =? 32))%nat.

Fixpoint skipWhiteSpace (s : string) : string :=
  match s with
  | String c rest => if isWhiteSpace c then skipWhiteSpace rest else s
  | EmptyString => s
  end.

(** Value of [c] as a digit of [radix] (10 or 16), if it is one. *)
Definition digitValue (radix : Z) (c : ascii) : option Z :=
  let n := Z.of_nat (nat_of_ascii c) in
  if (48 <=? n) && (n <=? 57) then Some (n - 48)
  else if (radix =? 16) && (97 <=? n) && (n <=? 102) then Some (n - 87)
  else if (radix =? 16) && (65 <=? n) && (n <=? 70) then Some (n - 55)
  else None.

(** The longest prefix of digits, read most significant first; [acc] is
    [None] as long as no digit was seen. *)
Fixpoint readDigits (radix : Z) (acc : option Z) (s : string) : option Z :=
  match s with
  | EmptyString => acc
  | String c rest =>
      match digitValue radix c with
      | Some d => readDigits radix (Some (radix * JS.orZero acc + d)) rest
      | None => acc
      end
  end.

(** [parseInt(s)] with no radix argument; [None] is [NaN].  The result is
    the exact integer, which is what JavaScript returns up to 2^53. *)
Definition parseInt (s : string) : option Z :=
  let s1 := skipWhiteSpace s in
  let '(sign, s2) :=
    match s1 with
    | String "-" rest => (-1, rest)
    | String "+" rest => (1, rest)
    | _ => (1, s1)
    end in
  let '(radix, s3) :=
    match s2 with
    | String "0" (String "x" rest) => (16, rest)
    | String "0" (String "X" rest) => (16, rest)
    | _ => (10, s2)
    end in
  option_map (Z.mul sign) (readDigits radix None s3).

End JSParse.

(** ** The record store behind [lumi.entities] *)

Module Lumi.

(** A JavaScript number that may be [NaN]. *)
Abbreviation number := (option Z).

(** The [Vehicle] interface of [hooks/useVehicles], without the
    descriptive fields (make, model, plate, dates, location) that neither
    page writes nor tests. *)
Module Vehicle.
Record t : Set := mk {
  _id : string;
  vehicleId : string;
  status : string;
  currentMileage : number;
  fuelLevel : number;
  currentDriverId : option string;
  updatedAt : option string
}.

(** The object literal passed to [lumi.entities.vehicles.update]. *)
Record patch : Set := mkPatch {
  p_status : string;
  p_currentDriverId : string;
  p_currentMileage : number;
  p_fuelLevel : number;
  p_updatedAt : string
}.

(** Merging a patch into a document: every patched field is overwritten,
    the others are kept. *)
Definition merge (p : patch) (v : t) : t :=
  {| _id := _id v;
     vehicleId := vehicleId v;
     status := p_status p;
     currentMileage := p_currentMileage p;
     fuelLevel := p_fuelLevel p;
     currentDriverId := Some (p_currentDriverId p);
     updatedAt := Some (p_updatedAt p) |}.
End Vehicle.

Inductive VehicleCondition : Set :=
| CondExcellent | CondGood | CondFair | CondPoor.

Module Assignment.
(** The patch that [handleCheckin] writes on the assignment. *)
Record patch : Set := mkPatch {
  endingMileage : number;
  fuelLevelEnd : number;
  returnDate : string;
  vehicleCondition : VehicleCondition;
  damageReported : bool;
  damageDescription : string;
  tripNotes : string;
  returnSignature : string;
  p_status : string;
  totalMileage : number;
  updatedAt : string
}.

(** [assignmentData] of [handleCheckout], with the [_id] given by the
    store and, once checked in, the fields of the checkin patch. *)
Record t : Set := mk {
  _id : string;
  vehicleId : string;
  driverId : string;
  assignmentType : string;
  assignmentDate : string;
  startingMileage : number;
  fuelLevelStart : number;
  destination : string;
  tripPurpose : string;
  estimatedReturnDate : string;
  voiceNotes : string;
  digitalSignature : string;
  status : string;
  creator : string;
  checkin : option patch
}.

Definition merge (p : patch) (a : t) : t :=
  {| _id := _id a;
     vehicleId := vehicleId a;
     driverId := driverId a;
     assignmentType := assignmentType a;
     assignmentDate := assignmentDate a;
     startingMileage := startingMileage a;
     fuelLevelStart := fuelLevelStart a;
     destination := destination a;
     tripPurpose := tripPurpose a;
     estimatedReturnDate := estimatedReturnDate a;
     voiceNotes := voiceNotes a;
     digitalSignature := digitalSignature a;
     status := p_status p;
     creator := creator a;
     checkin := Some p |}.

(** The store stamps a created record with its identifier. *)
Definition withId (i : string) (a : t) : t :=
  {| _id := i;
     vehicleId := vehicleId a;
     driverId := driverId a;
     assignmentType := assignmentType a;
     assignmentDate := assignmentDate a;
     startingMileage := startingMileage a;
     fuelLevelStart := fuelLevelStart a;
     destination := destination a;
     tripPurpose := tripPurpose a;
     estimatedReturnDate := estimatedReturnDate a;
     voiceNotes := voiceNotes a;
     digitalSignature := digitalSignature a;
     status := status a;
     creator := creator a;
     checkin := checkin a |}.
End Assignment.

Module Inspection.
(** The record that [handleCheckin] creates when damage is reported. *)
Record t : Set := mk {
  vehicleId : string;
  inspectionType : string;
  inspectionDate : string;
  inspectorId : string;
  mileageAtInspection : number;
  fuelLevel : number;
  overallCondition : VehicleCondition;
  damageReported : bool;
  notes : string;
  creator : string
}.
End Inspection.

(** Modelled from the spec: the persistence collaborator of section 6
    ([lib/lumi] is not part of the sources): three collections keyed by
    record identifier, [create] returning a new identifier and [update]
    answering NotFound for an unknown one. *)
Record Store : Type := mkStore {
  vehicles : gmap string Vehicle.t;
  vehicle_assignments : gmap string Assignment.t;
  vehicle_inspections : gmap string Inspection.t
}.

(** Outcome of a sequence of store calls inside [try]: either all went
    through, or one threw and the store is as the calls before it left
    it. *)
Inductive Attempt : Type :=
| Done (st : Store)
| Threw (st : Store).

Definition andThen (a : Attempt) (k : Store -> Attempt) : Attempt :=
  match a with
  | Done st => k st
  | Threw st => Threw st
  end.

Definition updateVehicle (i : string) (p : Vehicle.patch) (st : Store)
    : Attempt :=
  match vehicles st !! i with
  | Some v =>
      Done {| vehicles := <[i := Vehicle.merge p v]> (vehicles st);
              vehicle_assignments := vehicle_assignments st;
              vehicle_inspections := vehicle_inspections st |}
  | None => Threw st
  end.

Definition updateAssignment (i : string) (p : Assignment.patch) (st : Store)
    : Attempt :=
  match vehicle_assignments st !! i with
  | Some a =>
      Done {| vehicles := vehicles st;
              vehicle_assignments :=
                <[i := Assignment.merge p a]> (vehicle_assignments st);
              vehicle_inspections := vehicle_inspections st |}
  | None => Threw st
  end.

Definition createAssignment (a : Assignment.t) (st : Store) : Attempt :=
  let i := fresh (dom (vehicle_assignments st)) in
  Done {| vehicles := vehicles st;
          vehicle_assignments :=
            <[i := Assignment.withId i a]> (vehicle_assignments st);
          vehicle_inspections := vehicle_inspections st |}.

Definition createInspection (r : Inspection.t) (st : Store) : Attempt :=
  let i := fresh (dom (vehicle_inspections st)) in
  Done {| vehicles := vehicles st;
          vehicle_assignments := vehicle_assignments st;
          vehicle_inspections := <[i := r]> (vehicle_inspections st) |}.

(** [toast.error] and [toast.success]. *)
Inductive Toast : Set :=
| ToastError (message : string)
| ToastSuccess (message : string).

End Lumi.

(** ** src/pages/VehicleCheckout.tsx *)

Module VehicleCheckout.
Import Lumi.

(** The [useState] cells of the component that the handler and the render
    read. *)
Record State : Set := mkState {
  vehicle : option Vehicle.t;
  selectedDriverId : string;
  startingMileage : string;
  fuelLevel : string;
  destination : string;
  tripPurpose : string;
  estimatedReturn : string;
  voiceNotes : string;
  signature : string;
  submitting : bool
}.

(** What the component returns.  Only [CheckoutForm] contains the
    "Complete Checkout" button. *)
Inductive Screen : Set :=
| Loading
| VehicleNotFound
| VehicleNotAvailable (status : string)
| CheckoutForm (vehicle : Vehicle.t).

(** The chain of early returns that precedes the form. *)
Definition render (loading : bool) (s : State) : Screen :=
  if loading then Loading else
  match vehicle s with
  | None => VehicleNotFound
  | Some v =>
      if negb (String.eqb (Vehicle.status v) "available")
      then VehicleNotAvailable (Vehicle.status v)
      else CheckoutForm v
  end.

(** The [disabled] attribute of the button. *)
Definition buttonDisabled (s : State) : bool :=
  submitting s
  || JS.falsy (selectedDriverId s)
  || JS.falsy (startingMileage s)
  || JS.falsy (destination s)
  || JS.falsy (tripPurpose s)
  || JS.falsy (signature s).

(** [estimatedReturn ? new Date(estimatedReturn).toISOString() : ''];
    [toISO] is the conversion of the date typed in the form, [None] when
    [toISOString] throws on an invalid date. *)
Definition estimatedReturnDateOf
    (toISO : string -> option string) (s : State) : option string :=
  if JS.falsy (estimatedReturn s) then Some ""
  else toISO (estimatedReturn s).

(** [handleCheckout].  [now] is the reading of the clock.  The object
    literal [assignmentData] is built inside [try], so a date that cannot
    be converted ends in the [catch] branch before any store call. *)
Definition handleCheckout
    (now : string) (toISO : string -> option string)
    (v : Vehicle.t) (s : State) (st : Store) : Store * Toast :=
  if JS.falsy (selectedDriverId s) || JS.falsy (startingMileage s)
     || JS.falsy (destination s) || JS.falsy (tripPurpose s)
  then (st, ToastError "Please fill in all required fields")
  else if JS.falsy (signature s)
  then (st, ToastError "Digital signature is required")
  else
    match estimatedReturnDateOf toISO s with
    | None => (st, ToastError "Failed to check out vehicle")
    | Some estimatedReturnDate =>
    let assignmentData :=
      {| Assignment._id := "";
         Assignment.vehicleId := Vehicle.vehicleId v;
         Assignment.driverId := selectedDriverId s;
         Assignment.assignmentType := "checkout";
         Assignment.assignmentDate := now;
         Assignment.startingMileage := JSParse.parseInt (startingMileage s);
         Assignment.fuelLevelStart := JSParse.parseInt (fuelLevel s);
         Assignment.destination := destination s;
         Assignment.tripPurpose := tripPurpose s;
         Assignment.estimatedReturnDate := estimatedReturnDate;
         Assignment.voiceNotes := voiceNotes s;
         Assignment.digitalSignature := signature s;
         Assignment.status := "active";
         Assignment.creator := "current_user";
         Assignment.checkin := None |} in
    let attempt :=
      andThen (createAssignment assignmentData st) (fun st =>
      updateVehicle (Vehicle._id v)
        {| Vehicle.p_status := "in_use";
           Vehicle.p_currentDriverId := selectedDriverId s;
           Vehicle.p_currentMileage := JSParse.parseInt (startingMileage s);
           Vehicle.p_fuelLevel := JSParse.parseInt (fuelLevel s);
           Vehicle.p_updatedAt := now |} st) in
    match attempt with
    | Done st' => (st', ToastSuccess "Vehicle checked out successfully")
    | Threw st' => (st', ToastError "Failed to check out vehicle")
    end
    end.

(** What a checkout attempt on the page leads to. *)
Inductive Outcome : Set :=
| Refused (shown : Screen)
| Ignored
| Handled (toast : Toast).

(** A user who opens the page and asks for the checkout: the handler runs
    only when the form is on screen and its button is enabled. *)
Definition attemptCheckout
    (now : string) (toISO : string -> option string)
    (loading : bool) (s : State) (st : Store) : Store * Outcome :=
  match render loading s with
  | CheckoutForm v =>
      if buttonDisabled s then (st, Ignored)
      else
        let '(st', toast) := handleCheckout now toISO v s st in
        (st', Handled toast)
  | shown => (st, Refused shown)
  end.

End VehicleCheckout.

(** ** src/pages/VehicleCheckin.tsx *)

Module VehicleCheckin.
Import Lumi.

Record State : Set := mkState {
  vehicle : option Vehicle.t;
  currentAssignment : option Assignment.t;
  endingMileage : string;
  fuelLevel : string;
  vehicleCondition : VehicleCondition;
  damageReported : bool;
  damageDescription : string;
  tripNotes : string;
  signature : string;
  submitting : bool
}.

Inductive Screen : Set :=
| Loading
| VehicleNotFound
| VehicleNotInUse
| CheckinForm (vehicle : Vehicle.t).

Definition render (loading : bool) (s : State) : Screen :=
  if loading then Loading else
  match vehicle s with
  | None => VehicleNotFound
  | Some v =>
      if negb (String.eqb (Vehicle.status v) "in_use")
      then VehicleNotInUse
      else CheckinForm v
  end.

Definition buttonDisabled (s : State) : bool :=
  submitting s
  || JS.falsy (endingMileage s)
  || JS.falsy (signature s)
  || (damageReported s && JS.falsy (damageDescription s)).

(** [currentAssignment?.startingMileage || 0]. *)
Definition startMileageOf (a : option Assignment.t) : Z :=
  JS.orZero (a ≫= Assignment.startingMileage).

(** [currentAssignment?.driverId || 'unknown']. *)
Definition inspectorOf (a : option Assignment.t) : string :=
  match a with
  | Some a =>
      if JS.falsy (Assignment.driverId a) then "unknown"
      else Assignment.driverId a
  | None => "unknown"
  end.

(** The patch written on the assignment. *)
Definition assignmentPatch (now : string) (s : State) : Assignment.patch :=
  let endMileage := JSParse.parseInt (endingMileage s) in
  let startMileage := startMileageOf (currentAssignment s) in
  {| Assignment.endingMileage := endMileage;
     Assignment.fuelLevelEnd := JSParse.parseInt (fuelLevel s);
     Assignment.returnDate := now;
     Assignment.vehicleCondition := vehicleCondition s;
     Assignment.damageReported := damageReported s;
     Assignment.damageDescription := damageDescription s;
     Assignment.tripNotes := tripNotes s;
     Assignment.returnSignature := signature s;
     Assignment.p_status := "completed";
     Assignment.totalMileage := JS.sub endMileage (Some startMileage);
     Assignment.updatedAt := now |}.

(** The patch written on the vehicle. *)
Definition vehiclePatch (now : string) (s : State) : Vehicle.patch :=
  {| Vehicle.p_status := "available";
     Vehicle.p_currentDriverId := "";
     Vehicle.p_currentMileage := JSParse.parseInt (endingMileage s);
     Vehicle.p_fuelLevel := JSParse.parseInt (fuelLevel s);
     Vehicle.p_updatedAt := now |}.

(** The post-trip inspection created when damage is reported. *)
Definition inspectionRecord (now : string) (v : Vehicle.t) (s : State)
    : Inspection.t :=
  {| Inspection.vehicleId := Vehicle.vehicleId v;
     Inspection.inspectionType := "post_trip";
     Inspection.inspectionDate := now;
     Inspection.inspectorId := inspectorOf (currentAssignment s);
     Inspection.mileageAtInspection := JSParse.parseInt (endingMileage s);
     Inspection.fuelLevel := JSParse.parseInt (fuelLevel s);
     Inspection.overallCondition := vehicleCondition s;
     Inspection.damageReported := true;
     Inspection.notes := damageDescription s;
     Inspection.creator := "current_user" |}.

(** [handleCheckin]. *)
Definition handleCheckin
    (now : string) (v : Vehicle.t) (s : State) (st : Store)
    : Store * Toast :=
  if JS.falsy (endingMileage s) || JS.falsy (signature s)
  then (st, ToastError "Please fill in all required fields")
  else
    let endMileage := JSParse.parseInt (endingMileage s) in
    let startMileage := startMileageOf (currentAssignment s) in
    if JS.lt endMileage (Some startMileage)
    then (st, ToastError "Ending mileage cannot be less than starting mileage")
    else
      let attempt :=
        andThen
          match currentAssignment s with
          | Some a =>
              updateAssignment (Assignment._id a) (assignmentPatch now s) st
          | None => Done st
          end (fun st =>
        andThen (updateVehicle (Vehicle._id v) (vehiclePatch now s) st)
          (fun st =>
        if damageReported s
        then createInspection (inspectionRecord now v s) st
        else Done st)) in
      match attempt with
      | Done st' => (st', ToastSuccess "Vehicle checked in successfully")
      | Threw st' => (st', ToastError "Failed to check in vehicle")
      end.

End VehicleCheckin.

(** ** A small fleet, used to run the definitions on concrete inputs *)

Module Fleet.
Import Lumi.

Definition now : string := "2024-05-01T08:00:00.000Z".

(** The vehicle of the end-to-end scenario: odometer 45000, fuel 70%. *)
Definition availableVehicle : Vehicle.t :=
  {| Vehicle._id := "veh-1";
     Vehicle.vehicleId := "AFG7557";
     Vehicle.status := "available";
     Vehicle.currentMileage := Some 45000;
     Vehicle.fuelLevel := Some 70;
     Vehicle.currentDriverId := None;
     Vehicle.updatedAt := None |}.

(** The same vehicle once checked out by driver D1. *)
Definition vehicleInUse : Vehicle.t :=
  {| Vehicle._id := "veh-1";
     Vehicle.vehicleId := "AFG7557";
     Vehicle.status := "in_use";
     Vehicle.currentMileage := Some 45000;
     Vehicle.fuelLevel := Some 70;
     Vehicle.currentDriverId := Some "D1";
     Vehicle.updatedAt := Some now |}.

Definition activeAssignment : Assignment.t :=
  {| Assignment._id := "asg-1";
     Assignment.vehicleId := "AFG7557";
     Assignment.driverId := "D1";
     Assignment.assignmentType := "checkout";
     Assignment.assignmentDate := now;
     Assignment.startingMileage := Some 45000;
     Assignment.fuelLevelStart := Some 70;
     Assignment.destination := "Depot";
     Assignment.tripPurpose := "Delivery";
     Assignment.estimatedReturnDate := "";
     Assignment.voiceNotes := "";
     Assignment.digitalSignature := "D1";
     Assignment.status := "active";
     Assignment.creator := "current_user";
     Assignment.checkin := None |}.

Definition storeBeforeCheckout : Store :=
  {| vehicles := {[ "veh-1" := availableVehicle ]};
     vehicle_assignments := ∅;
     vehicle_inspections := ∅ |}.

Definition storeDuringTrip : Store :=
  {| vehicles := {[ "veh-1" := vehicleInUse ]};
     vehicle_assignments := {[ "asg-1" := activeAssignment ]};
     vehicle_inspections := ∅ |}.

(** A completely filled checkout form for vehicle [v]. *)
Definition checkoutForm (v : Vehicle.t) : VehicleCheckout.State :=
  {| VehicleCheckout.vehicle := Some v;
     VehicleCheckout.selectedDriverId := "D1";
     VehicleCheckout.startingMileage := "45000";
     VehicleCheckout.fuelLevel := "70";
     VehicleCheckout.destination := "Depot";
     VehicleCheckout.tripPurpose := "Delivery";
     VehicleCheckout.estimatedReturn := "";
     VehicleCheckout.voiceNotes := "";
     VehicleCheckout.signature := "D1";
     VehicleCheckout.submitting := false |}.

(** A checkin form for the trip of [activeAssignment], without damage. *)
Definition checkinForm (endingMileage : string) : VehicleCheckin.State :=
  {| VehicleCheckin.vehicle := Some vehicleInUse;
     VehicleCheckin.currentAssignment := Some activeAssignment;
     VehicleCheckin.endingMileage := endingMileage;
     VehicleCheckin.fuelLevel := "55";
     VehicleCheckin.vehicleCondition := CondGood;
     VehicleCheckin.damageReported := false;
     VehicleCheckin.damageDescription := "";
     VehicleCheckin.tripNotes := "";
     VehicleCheckin.signature := "D1";
     VehicleCheckin.submitting := false |}.

(** A checkin form on which the driver reports critical damage, in the
    only way the form allows: the damage box ticked, the worst condition
    selected and a description. *)
Definition checkinFormCriticalDamage : VehicleCheckin.State :=
  {| VehicleCheckin.vehicle := Some vehicleInUse;
     VehicleCheckin.currentAssignment := Some activeAssignment;
     VehicleCheckin.endingMileage := "45120";
     VehicleCheckin.fuelLevel := "55";
     VehicleCheckin.vehicleCondition := CondPoor;
     VehicleCheckin.damageReported := true;
     VehicleCheckin.damageDescription :=
       "Critical damage: brake line severed";
     VehicleCheckin.tripNotes := "";
     VehicleCheckin.signature := "D1";
     VehicleCheckin.submitting := false |}.

(** The [vehicles] collection read by the odometer validation. *)
Definition firestore : InspectionService.Firestore :=
  InspectionService.Vehicles
    {[ "AFG7557" := {| InspectionService.currentOdometer := Some 45000 |} ]}.

(** The service data of a vehicle standing at its next-service odometer. *)
Definition overdueService : VehicleService.Vehicle :=
  {| VehicleService.nextServiceOdometer := 45000;
     VehicleService.currentOdometer := 45000 |}.

End Fleet.

(** ** More JavaScript: [Number.prototype.toString] *)

Module JSNumber.

(** [x.toString()] for a number that is an integer or [NaN].  The decimal
    form is the one JavaScript prints below 10^21. *)
Definition toString (x : option Z) : string :=
  match x with
  | Some n => JS.numberToString n
  | None => "NaN"
  end.

(** The numbers that JavaScript prints in plain decimal form. *)
Definition decimal (x : option Z) : Prop :=
  match x with
  | Some n => Z.abs n < 10 ^ 21
  | None => True
  end.

(** Whether the character [c] occurs in [s]. *)
Fixpoint occurs (c : ascii) (s : string) : bool :=
  match s with
  | EmptyString => false
  | String c' rest => Ascii.eqb c' c || occurs c rest
  end.

End JSNumber.

(** ** src/pages/VehicleCheckout.tsx: the effect that loads the vehicle *)

Module CheckoutPage.
Import Lumi VehicleCheckout.



(** The record that [handleCheckout] creates, [date] being the converted
    return date. *)
Definition assignmentOf
    (now date : string) (v : Vehicle.t) (s : State) : Assignment.t :=
  {| Assignment._id := "";
     Assignment.vehicleId := Vehicle.vehicleId v;
     Assignment.driverId := selectedDriverId s;
     Assignment.assignmentType := "checkout";
     Assignment.assignmentDate := now;
     Assignment.startingMileage := JSParse.parseInt (startingMileage s);
     Assignment.fuelLevelStart := JSParse.parseInt (fuelLevel s);
     Assignment.destination := destination s;
     Assignment.tripPurpose := tripPurpose s;
     Assignment.estimatedReturnDate := date;
     Assignment.voiceNotes := voiceNotes s;
     Assignment.digitalSignature := signature s;
     Assignment.status := "active";
     Assignment.creator := "current_user";
     Assignment.checkin := None |}.

(** The patch that [handleCheckout] writes on the vehicle. *)
Definition vehiclePatch (now : string) (s : State) : Vehicle.patch :=
  {| Vehicle.p_status := "in_use";
     Vehicle.p_currentDriverId := selectedDriverId s;
     Vehicle.p_currentMileage := JSParse.parseInt (startingMileage s);
     Vehicle.p_fuelLevel := JSParse.parseInt (fuelLevel s);
     Vehicle.p_updatedAt := now |}.


End CheckoutPage.

(** ** src/pages/VehicleCheckin.tsx: the rest of the component *)

Module CheckinPage.
Import Lumi VehicleCheckin.

(** [calculateTripDistance], the figure shown next to the form. *)
Definition calculateTripDistance (s : State) : number :=
  match currentAssignment s with
  | Some a =>
      if JS.falsy (endingMileage s) then Some 0
      else JS.sub (JSParse.parseInt (endingMileage s))
                  (Some (JS.orZero (Assignment.startingMileage a)))
  | None => Some 0
  end.

(** What a checkin attempt on the page leads to. *)
Inductive Outcome : Set :=
| Refused (shown : Screen)
| Ignored
| Handled (toast : Toast).

(** A user who opens the page and asks for the checkin: the handler runs
    only when the form is on screen and its button is enabled. *)
Definition attemptCheckin
    (now : string) (loading : bool) (s : State) (st : Store)
    : Store * Outcome :=
  match render loading s with
  | CheckinForm v =>
      if buttonDisabled s then (st, Ignored)
      else
        let '(st', toast) := handleCheckin now v s st in
        (st', Handled toast)
  | shown => (st, Refused shown)
  end.

End CheckinPage.

(** ** hooks/useVehicles: the updates of a vehicle *)

Module UseVehicles.
Import Lumi.

(** [Partial<Vehicle>], over the fields of [Vehicle.t] that an update may
    carry. *)
Record updates : Set := mkUpdates {
  u_status : option string;
  u_currentDriverId : option string;
  u_currentMileage : option number;
  u_fuelLevel : option number
}.

(** [{ ...updates, updatedAt }] merged into the stored document. *)
Definition apply (u : updates) (now : string) (v : Vehicle.t) : Vehicle.t :=
  {| Vehicle._id := Vehicle._id v;
     Vehicle.vehicleId := Vehicle.vehicleId v;
     Vehicle.status := default (Vehicle.status v) (u_status u);
     Vehicle.currentMileage :=
       default (Vehicle.currentMileage v) (u_currentMileage u);
     Vehicle.fuelLevel := default (Vehicle.fuelLevel v) (u_fuelLevel u);
     Vehicle.currentDriverId :=
       match u_currentDriverId u with
       | Some d => Some d
       | None => Vehicle.currentDriverId v
       end;
     Vehicle.updatedAt := Some now |}.

(** What [updateVehicle] leaves behind: the store, the [vehicles] state of
    the hook, the toast, and the updated vehicle it returns ([None] when it
    rethrows).  The store answers an update with the document as it stands
    after the merge, which is what the hook puts in its list. *)
Record Result : Type := mkResult {
  store : Store;
  vehicles : list Vehicle.t;
  toast : Toast;
  returned : option Vehicle.t
}.

Definition updateVehicle
    (now : string) (vehicleId : string) (u : updates)
    (st : Store) (hook : list Vehicle.t) : Result :=
  match Lumi.vehicles st !! vehicleId with
  | Some v =>
      let updatedVehicle := apply u now v in
      {| store :=
           {| Lumi.vehicles := <[vehicleId := updatedVehicle]> (Lumi.vehicles st);
              vehicle_assignments := vehicle_assignments st;
              vehicle_inspections := vehicle_inspections st |};
         vehicles :=
           List.map
             (fun v => if String.eqb (Vehicle._id v) vehicleId
                       then updatedVehicle else v)
             hook;
         toast := ToastSuccess "Vehicle updated successfully";
         returned := Some updatedVehicle |}
  | None =>
      {| store := st;
         vehicles := hook;
         toast := ToastError "Failed to update vehicle";
         returned := None |}
  end.

Definition updateVehicleStatus
    (now : string) (vehicleId status : string) :=
  updateVehicle now vehicleId
    {| u_status := Some status; u_currentDriverId := None;
       u_currentMileage := None; u_fuelLevel := None |}.

Definition assignDriver (now : string) (vehicleId driverId : string) :=
  updateVehicle now vehicleId
    {| u_status := Some "in_use"; u_currentDriverId := Some driverId;
       u_currentMileage := None; u_fuelLevel := None |}.

Definition releaseVehicle (now : string) (vehicleId : string) :=
  updateVehicle now vehicleId
    {| u_status := Some "available"; u_currentDriverId := Some "";
       u_currentMileage := None; u_fuelLevel := None |}.

(** The [vehicles] state mirrors the store: each listed vehicle is the
    document stored under its identifier. *)
Definition inSync (st : Store) (hook : list Vehicle.t) : Prop :=
  forall v, In v hook -> Lumi.vehicles st !! Vehicle._id v = Some v.

End UseVehicles.

(** ** src/services/InspectionService.ts: submission and review *)

Module InspectionRecords.
Import InspectionService.

(** [Math.round(x)]: the nearest integer, halves going up. *)
Definition round (x : QArith_base.Q) : Z :=
  Qround.Qfloor (QArith_base.Qplus x (QArith_base.Qmake 1 2)).

Inductive InspectionType : Set :=
| CheckIn | CheckOut | Periodic | Incident | MaintenanceCheck.

Inductive Quality : Set :=
| QualityLow | QualityMedium | QualityHigh.

Record Location : Set := mkLocation {
  loc_coordinates : QArith_base.Q * QArith_base.Q;
  loc_address : string;
  loc_accuracy : Z
}.

(** [InspectionData.odometer]. *)
Record OdometerInput : Set := mkOdometerInput {
  odo_reading : Z;
  odo_photo : option string;
  odo_isValid : bool;
  odo_validationErrors : option (list string)
}.

(** [InspectionData.fuelLevel]. *)
Record FuelInput : Set := mkFuelInput {
  fuel_percentage : Z;
  fuel_photo : string;
  fuel_visualGaugeReading : Z;
  fuel_refueled : bool;
  fuel_refuelAmount : option Z;
  fuel_refuelCost : option Z;
  fuel_refuelReceipt : option string
}.

(** An entry of [InspectionData.voiceNotes]. *)
Record VoiceNoteInput : Set := mkVoiceNoteInput {
  vn_audioFile : string;
  vn_duration : Z;
  vn_quality : Quality
}.

Record PlannedTrip : Set := mkPlannedTrip {
  trip_purpose : string;
  trip_destination : string;
  trip_waypoints : list string;
  trip_estimatedDistance : Z;
  trip_estimatedDuration : Z;
  trip_passengers : Z;
  trip_cargoDetails : option string
}.

Record InspectionData : Set := mkInspectionData {
  d_vehicleId : string;
  d_driverId : string;
  d_type : InspectionType;
  d_location : option Location;
  d_odometer : OdometerInput;
  d_fuelLevel : FuelInput;
  d_damages : list DamageReport;
  d_checklistItems : list ChecklistItem;
  d_voiceNotes : list VoiceNoteInput;
  d_plannedTrip : option PlannedTrip
}.

Record InspectionSubmissionResult : Set := mkSubmissionResult {
  success : bool;
  inspectionId : option string;
  error : option string
}.

(** The stored document.  Its parts are those of the object literal
    [inspectionDoc]; [i_updatedAt], [i_reviewNotes] and [i_reviewedAt] are
    the fields that [updateInspectionStatus] adds. *)
Record Weather : Set := mkWeather {
  w_condition : string;
  w_temperature : Z;
  w_humidity : Z;
  w_windSpeed : Z;
  w_source : string
}.

Record OdometerDoc : Set := mkOdometerDoc {
  doc_reading : Z;
  doc_odometerPhoto : string;
  doc_isValid : bool;
  doc_validationErrors : list string
}.

Record FuelDoc : Set := mkFuelDoc {
  doc_percentage : Z;
  doc_estimatedLiters : Z;
  doc_fuelPhoto : string;
  doc_visualGaugeReading : Z;
  doc_refueled : bool;
  doc_refuelAmount : option Z;
  doc_refuelCost : option Z;
  doc_refuelReceipt : option string
}.

Record DamageInspection : Set := mkDamageInspection {
  overallCondition : Condition;
  damages : list DamageReport;
  damagePhotos : list string;
  completedChecklist : list ChecklistItem
}.

Record VoiceNote : Set := mkVoiceNote {
  note_id : string;
  note_audioFile : string;
  note_duration : Z;
  note_transcript : string;
  note_summary : string;
  note_category : string;
  note_nlpTags : list string;
  note_confidence : Z
}.

Record VehicleInspection : Set := mkVehicleInspection {
  i_vehicleId : string;
  i_driverId : string;
  i_type : InspectionType;
  i_timestamp : Z;
  i_location : Location;
  i_weather : Weather;
  i_odometer : OdometerDoc;
  i_fuelLevel : FuelDoc;
  i_damageInspection : DamageInspection;
  i_voiceNotes : list VoiceNote;
  i_plannedTrip : option PlannedTrip;
  i_status : string;
  i_submittedAt : Z;
  i_updatedAt : option Z;
  i_reviewNotes : option string;
  i_reviewedAt : option Z
}.

(** Harare, the location used when the inspection brings none. *)
Definition defaultLocation : Location :=
  {| loc_coordinates :=
       (QArith_base.Qmake (-178216) 10000, QArith_base.Qmake 310492 10000);
     loc_address := "Current Location";
     loc_accuracy := 10 |}.

Definition defaultWeather : Weather :=
  {| w_condition := "Unknown";
     w_temperature := 22;
     w_humidity := 60;
     w_windSpeed := 5;
     w_source := "default" |}.

(** [Math.round((percentage / 100) * 60)], for a 60 litre tank.  For an
    integer percentage the product is a multiple of 1/5, so the rounding of
    the floating-point product cannot move it across a half. *)
Definition estimatedLiters (percentage : Z) : Z :=
  round (QArith_base.Qmult
           (QArith_base.Qdiv (QArith_base.inject_Z percentage)
                             (QArith_base.inject_Z 100))
           (QArith_base.inject_Z 60)).

(** The callback of [voiceNotes.map]; [time] is what [Date.now()] reads
    when the note at [index] is converted. *)
Definition voiceNoteOf (time : Z) (index : nat) (note : VoiceNoteInput)
    : VoiceNote :=
  {| note_id :=
       "voice_" ++ JS.numberToString time ++ "_"
         ++ JS.numberToString (Z.of_nat index);
     note_audioFile := vn_audioFile note;
     note_duration := vn_duration note;
     note_transcript := "";
     note_summary := "";
     note_category := "general";
     note_nlpTags := [];
     note_confidence := 0 |}.

(** The document built from the inspection data; [serverTime] is the value
    that [serverTimestamp()] resolves to and [clock] the successive
    readings of [Date.now()]. *)
Definition inspectionDocOf
    (serverTime : Z) (clock : nat -> Z) (inspectionData : InspectionData)
    : VehicleInspection :=
  {| i_vehicleId := d_vehicleId inspectionData;
     i_driverId := d_driverId inspectionData;
     i_type := d_type inspectionData;
     i_timestamp := serverTime;
     i_location := default defaultLocation (d_location inspectionData);
     i_weather := defaultWeather;
     i_odometer :=
       {| doc_reading := odo_reading (d_odometer inspectionData);
          doc_odometerPhoto :=
            default "" (odo_photo (d_odometer inspectionData));
          doc_isValid := odo_isValid (d_odometer inspectionData);
          doc_validationErrors :=
            default [] (odo_validationErrors (d_odometer inspectionData)) |};
     i_fuelLevel :=
       {| doc_percentage := fuel_percentage (d_fuelLevel inspectionData);
          doc_estimatedLiters :=
            estimatedLiters (fuel_percentage (d_fuelLevel inspectionData));
          doc_fuelPhoto := fuel_photo (d_fuelLevel inspectionData);
          doc_visualGaugeReading :=
            fuel_visualGaugeReading (d_fuelLevel inspectionData);
          doc_refueled := fuel_refueled (d_fuelLevel inspectionData);
          doc_refuelAmount := fuel_refuelAmount (d_fuelLevel inspectionData);
          doc_refuelCost := fuel_refuelCost (d_fuelLevel inspectionData);
          doc_refuelReceipt :=
            fuel_refuelReceipt (d_fuelLevel inspectionData) |};
     i_damageInspection :=
       {| overallCondition :=
            determinOverallCondition (d_damages inspectionData)
                                     (d_checklistItems inspectionData);
          damages := d_damages inspectionData;
          damagePhotos := [];
          completedChecklist := d_checklistItems inspectionData |};
     i_voiceNotes :=
       imap (fun index note => voiceNoteOf (clock index) index note)
            (d_voiceNotes inspectionData);
     i_plannedTrip := d_plannedTrip inspectionData;
     i_status := "completed";
     i_submittedAt := serverTime;
     i_updatedAt := None;
     i_reviewNotes := None;
     i_reviewedAt := None |}.

(** Modelled from the spec: the persistence collaborator of section 6 for
    the [inspections] collection (the Firestore client is not part of the
    sources).  It either fails, throwing an [Error] with a message or some
    other value, or it serves the collection: [addDoc] stores under a new
    identifier and [updateDoc] rejects an unknown one. *)
Inductive Firestore : Type :=
| Failing (thrown : option string)
| Serving (inspections : gmap string VehicleInspection).

(** [submitInspection]. *)
Definition submitInspection
    (serverTime : Z) (clock : nat -> Z)
    (inspectionData : InspectionData) (db : Firestore)
    : Firestore * InspectionSubmissionResult :=
  if JS.falsy (d_vehicleId inspectionData)
     || JS.falsy (d_driverId inspectionData)
  then (db, {| success := false;
               inspectionId := None;
               error := Some "Vehicle ID and Driver ID are required" |})
  else
    match db with
    | Failing thrown =>
        (db, {| success := false;
                inspectionId := None;
                error := Some (default "Failed to submit inspection" thrown) |})
    | Serving inspections =>
        let docRef := fresh (dom inspections) in
        (Serving
           (<[docRef := inspectionDocOf serverTime clock inspectionData]>
              inspections),
         {| success := true;
            inspectionId := Some docRef;
            error := None |})
    end.

(** The document after [updateDoc(inspectionRef, updateData)]. *)
Definition reviewed
    (serverTime : Z) (status : string) (reviewNotes : option string)
    (doc : VehicleInspection) : VehicleInspection :=
  let noted :=
    match reviewNotes with
    | Some notes => negb (JS.falsy notes)
    | None => false
    end in
  {| i_vehicleId := i_vehicleId doc;
     i_driverId := i_driverId doc;
     i_type := i_type doc;
     i_timestamp := i_timestamp doc;
     i_location := i_location doc;
     i_weather := i_weather doc;
     i_odometer := i_odometer doc;
     i_fuelLevel := i_fuelLevel doc;
     i_damageInspection := i_damageInspection doc;
     i_voiceNotes := i_voiceNotes doc;
     i_plannedTrip := i_plannedTrip doc;
     i_status := status;
     i_submittedAt := i_submittedAt doc;
     i_updatedAt := Some serverTime;
     i_reviewNotes := if noted then reviewNotes else i_reviewNotes doc;
     i_reviewedAt := if noted then Some serverTime else i_reviewedAt doc |}.

(** [updateInspectionStatus]. *)
Definition updateInspectionStatus
    (serverTime : Z) (inspectionId status : string)
    (reviewNotes : option string) (db : Firestore) : Firestore * bool :=
  match db with
  | Failing _ => (db, false)
  | Serving inspections =>
      match inspections !! inspectionId with
      | Some doc =>
          (Serving
             (<[inspectionId := reviewed serverTime status reviewNotes doc]>
                inspections),
           true)
      | None => (db, false)
      end
  end.

End InspectionRecords.

(** ** src/services/VehicleService.ts: the vehicle history *)

Module VehicleHistory.

(** Modelled from the spec: the records of the missing [types/models],
    reduced to the fields that the history functions read.
    [trip_totalDistance] is [trip.route?.totalDistance] and
    [trip_consumedLiters] is [trip.fuel?.consumedLiters]; distances and
    litres are rationals and their arithmetic is exact. *)
Record Trip : Set := mkTrip {
  trip_id : string;
  trip_driverId : string;
  trip_totalDistance : option QArith_base.Q;
  trip_consumedLiters : option QArith_base.Q
}.

Record ServiceRecord : Set := mkServiceRecord {
  sr_id : string;
  sr_serviceType : string
}.

Record User : Set := mkUser {
  uid : string;
  displayName : option string;
  email : option string
}.

Record TelemetryEvent : Set := mkTelemetryEvent {
  location : option (QArith_base.Q * QArith_base.Q)
}.

(** What a call to the store comes back with. *)
Inductive Answer (A : Type) : Type :=
| Throws
| Returns (a : A).
Arguments Throws {A}.
Arguments Returns {A} a.

(** Modelled from the spec: the persistence collaborator of section 6, seen
    through the reads that [VehicleService] issues.  Filtering, ordering
    and limiting are the store's. *)
Record Firestore : Type := mkFirestore {
  getVehicleDoc : string -> Answer (option VehicleService.Vehicle);
  queryServiceRecords : string -> Z -> Answer (list ServiceRecord);
  queryTrips : string -> Z -> Answer (list Trip);
  getUserDoc : string -> Answer (option User);
  queryLatestLocation : string -> Answer (list TelemetryEvent)
}.

Definition getServiceRecords (db : Firestore) (vehicleId : string)
    (limitCount : Z) : list ServiceRecord :=
  match queryServiceRecords db vehicleId limitCount with
  | Returns records => records
  | Throws => []
  end.

Definition getRecentTrips (db : Firestore) (vehicleId : string)
    (limitCount : Z) : list Trip :=
  match queryTrips db vehicleId limitCount with
  | Returns trips => trips
  | Throws => []
  end.

Definition getDriverInfo (db : Firestore) (driverId : string) : option User :=
  match getUserDoc db driverId with
  | Returns (Some user) => Some user
  | Returns None => None
  | Throws => None
  end.

Definition getCurrentLocation (db : Firestore) (vehicleId : string)
    : option (QArith_base.Q * QArith_base.Q) :=
  match queryLatestLocation db vehicleId with
  | Returns (latestEvent :: _) => location latestEvent
  | Returns [] => None
  | Throws => None
  end.

(** [x || 0] on a rational that may be absent. *)
Definition orZeroQ (x : option QArith_base.Q) : QArith_base.Q :=
  default (QArith_base.inject_Z 0) x.

(** [trips.reduce((sum, trip) => sum + (f(trip) || 0), 0)]. *)
Definition total (f : Trip -> option QArith_base.Q) (trips : list Trip)
    : QArith_base.Q :=
  fold_left (fun sum trip => QArith_base.Qplus sum (orZeroQ (f trip)))
            trips (QArith_base.inject_Z 0).

Record VehicleHistoryData : Set := mkVehicleHistoryData {
  vehicle_id : string;
  vehicle : VehicleService.Vehicle;
  lastServiceRecord : option ServiceRecord;
  recentTrips : list Trip;
  previousDriver : option User;
  currentLocation : option (QArith_base.Q * QArith_base.Q);
  totalTrips : nat;
  totalDistance : QArith_base.Q;
  averageFuelEfficiency : QArith_base.Q
}.

(** [getVehicleHistory]; [None] is the [null] it returns. *)
Definition getVehicleHistory (db : Firestore) (vehicleId : string)
    : option VehicleHistoryData :=
  match getVehicleDoc db vehicleId with
  | Throws => None
  | Returns None => None
  | Returns (Some data) =>
      let serviceRecords := getServiceRecords db vehicleId 1 in
      let trips := getRecentTrips db vehicleId 10 in
      let previousDriver :=
        match trips with
        | lastTrip :: _ =>
            if JS.falsy (trip_driverId lastTrip) then None
            else getDriverInfo db (trip_driverId lastTrip)
        | [] => None
        end in
      let totalDistance := total trip_totalDistance trips in
      let totalFuelConsumed := total trip_consumedLiters trips in
      Some
        {| vehicle_id := vehicleId;
           vehicle := data;
           lastServiceRecord := head serviceRecords;
           recentTrips := trips;
           previousDriver := previousDriver;
           currentLocation := getCurrentLocation db vehicleId;
           totalTrips := length trips;
           totalDistance := totalDistance;
           averageFuelEfficiency :=
             if QArith_base.Qlt_le_dec (QArith_base.inject_Z 0)
                                       totalFuelConsumed
             then QArith_base.Qdiv totalDistance totalFuelConsumed
             else QArith_base.inject_Z 0 |}
  end.

Record TripWithDriver : Set := mkTripWithDriver {
  trip : Trip;
  driverName : string;
  driverEmail : string
}.

(** [s || fallback] on a string that may be absent. *)
Definition orElse (s : option string) (fallback : string) : string :=
  match s with
  | Some s => if JS.falsy s then fallback else s
  | None => fallback
  end.

(** [getTripsWithDrivers]. *)
Definition getTripsWithDrivers (db : Firestore) (vehicleId : string)
    (limitCount : Z) : list TripWithDriver :=
  List.map
    (fun trip =>
       let driver := getDriverInfo db (trip_driverId trip) in
       {| trip := trip;
          driverName := orElse (driver ≫= displayName) "Unknown Driver";
          driverEmail := orElse (driver ≫= email) "" |})
    (getRecentTrips db vehicleId limitCount).

End VehicleHistory.

(** ** Vocabulary for the properties of the condition assessor *)

Module Assessor.
Import InspectionService.

(** The conditions from best to worst. *)
Definition rank (c : Condition) : nat :=
  match c with
  | Excellent => 0
  | Good => 1
  | Fair => 2
  | Poor => 3
  | Damaged => 4
  end.

(** A damage report that carries a severity. *)
Definition graded (d : DamageReport) : bool :=
  match severity d with
  | Some _ => true
  | None => false
  end.

(** A checklist item that did not pass. *)
Definition flagged (i : ChecklistItem) : bool :=
  match status i with
  | Pass => false
  | _ => true
  end.

(** The same report with another [hasDamage] flag. *)
Definition withHasDamage (flag : bool) (d : DamageReport) : DamageReport :=
  {| id := id d;
     component := component d;
     hasDamage := flag;
     severity := severity d;
     description := description d;
     photos := photos d;
     annotations := annotations d;
     estimatedCost := estimatedCost d;
     repairRequired := repairRequired d;
     reportedAt := reportedAt d |}.

End Assessor.

(** ** More concrete inputs *)

Module Samples.
Import Lumi.

(** A dented bumper, graded minor, and a severed brake line, graded
    critical, as [createDamageReport] builds them. *)
Definition dentedBumper : InspectionService.DamageReport :=
  InspectionService.createDamageReport
    1714550400000 "k3x9q2m1a" "front_bumper" true
    (Some InspectionService.SevMinor) (Some "Dent on the left") None.

Definition severedBrakeLine : InspectionService.DamageReport :=
  InspectionService.createDamageReport
    1714550400500 "p7w2c8d4z" "brakes" true
    (Some InspectionService.SevCritical) (Some "Brake line severed") None.

Definition failedLights : InspectionService.ChecklistItem :=
  InspectionService.mkChecklistItem
    "lights" InspectionService.Fail None (Some InspectionService.ItemLow).

Definition passedTyres : InspectionService.ChecklistItem :=
  InspectionService.mkChecklistItem "tyres" InspectionService.Pass None None.

(** A check-in inspection with two damage reports and two voice notes. *)
Definition inspectionData : InspectionRecords.InspectionData :=
  {| InspectionRecords.d_vehicleId := "AFG7557";
     InspectionRecords.d_driverId := "D1";
     InspectionRecords.d_type := InspectionRecords.CheckIn;
     InspectionRecords.d_location := None;
     InspectionRecords.d_odometer :=
       {| InspectionRecords.odo_reading := 45120;
          InspectionRecords.odo_photo := None;
          InspectionRecords.odo_isValid := true;
          InspectionRecords.odo_validationErrors := None |};
     InspectionRecords.d_fuelLevel :=
       {| InspectionRecords.fuel_percentage := 55;
          InspectionRecords.fuel_photo := "fuel.jpg";
          InspectionRecords.fuel_visualGaugeReading := 50;
          InspectionRecords.fuel_refueled := false;
          InspectionRecords.fuel_refuelAmount := None;
          InspectionRecords.fuel_refuelCost := None;
          InspectionRecords.fuel_refuelReceipt := None |};
     InspectionRecords.d_damages := [dentedBumper; severedBrakeLine];
     InspectionRecords.d_checklistItems := [failedLights; passedTyres];
     InspectionRecords.d_voiceNotes :=
       [ {| InspectionRecords.vn_audioFile := "note-1.m4a";
            InspectionRecords.vn_duration := 12;
            InspectionRecords.vn_quality := InspectionRecords.QualityHigh |};
         {| InspectionRecords.vn_audioFile := "note-2.m4a";
            InspectionRecords.vn_duration := 7;
            InspectionRecords.vn_quality := InspectionRecords.QualityLow |} ];
     InspectionRecords.d_plannedTrip := None |}.

(** An empty [inspections] collection that accepts documents. *)
Definition emptyInspections : InspectionRecords.Firestore :=
  InspectionRecords.Serving ∅.

(** A clock that stands still. *)
Definition clock (_ : nat) : Z := 1714550400000.

(** Two recent trips of vehicle AFG7557, the newer one first. *)
Definition tripToDepot : VehicleHistory.Trip :=
  {| VehicleHistory.trip_id := "trip-2";
     VehicleHistory.trip_driverId := "D1";
     VehicleHistory.trip_totalDistance := Some (QArith_base.inject_Z 120);
     VehicleHistory.trip_consumedLiters := Some (QArith_base.inject_Z 10) |}.

Definition tripWithoutFigures : VehicleHistory.Trip :=
  {| VehicleHistory.trip_id := "trip-1";
     VehicleHistory.trip_driverId := "D9";
     VehicleHistory.trip_totalDistance := None;
     VehicleHistory.trip_consumedLiters := None |}.

(** A store that knows the vehicle and its trips, whose users collection is
    unreachable and which has no service record or position. *)
Definition historyStore : VehicleHistory.Firestore :=
  {| VehicleHistory.getVehicleDoc :=
       fun vehicleId =>
         if String.eqb vehicleId "AFG7557"
         then VehicleHistory.Returns (Some Fleet.overdueService)
         else VehicleHistory.Returns None;
     VehicleHistory.queryServiceRecords :=
       fun _ _ => VehicleHistory.Returns [];
     VehicleHistory.queryTrips :=
       fun vehicleId _ =>
         if String.eqb vehicleId "AFG7557"
         then VehicleHistory.Returns [tripToDepot; tripWithoutFigures]
         else VehicleHistory.Returns [];
     VehicleHistory.getUserDoc := fun _ => VehicleHistory.Throws;
     VehicleHistory.queryLatestLocation :=
       fun _ => VehicleHistory.Returns [] |}.


(** A store from which the vehicle has been deleted, with and without the
    assignment of its last trip. *)
Definition storeWithoutVehicle : Store :=
  {| vehicles := ∅;
     vehicle_assignments := ∅;
     vehicle_inspections := ∅ |}.

Definition storeWithAssignmentOnly : Store :=
  {| vehicles := ∅;
     vehicle_assignments := {[ "asg-1" := Fleet.activeAssignment ]};
     vehicle_inspections := ∅ |}.

(** A checkin form with another ending mileage and no current
    assignment. *)
Definition checkinWithoutAssignment (endingMileage : string)
    : VehicleCheckin.State :=
  {| VehicleCheckin.vehicle := Some Fleet.vehicleInUse;
     VehicleCheckin.currentAssignment := None;
     VehicleCheckin.endingMileage := endingMileage;
     VehicleCheckin.fuelLevel := "55";
     VehicleCheckin.vehicleCondition := CondGood;
     VehicleCheckin.damageReported := false;
     VehicleCheckin.damageDescription := "";
     VehicleCheckin.tripNotes := "";
     VehicleCheckin.signature := "D1";
     VehicleCheckin.submitting := false |}.

End Samples.

(** * Properties *)

(** ** The condition assessor *)

Section ConditionAssessor.
Import InspectionService.

Lemma severityIs_true (s : DamageSeverity) (d : DamageReport) :
  severityIs s d = true <-> severity d = Some s.
Proof.
  unfold severityIs. destruct (severity d) as [s'|].
  - destruct s', s; simpl; split; intro H; congruence.
  - split; intro H; discriminate.
Qed.

Lemma anyDamage_reflect (s : DamageSeverity) (damages : list DamageReport) :
  reflect (anyDamage s damages) (existsb (severityIs s) damages).
Proof.
  apply iff_reflect. unfold anyDamage. rewrite existsb_exists.
  split; intros [d [Hin Hd]]; exists d; split; trivial;
    now apply severityIs_true.
Qed.

Lemma needsAttention_reflect (items : list ChecklistItem) :
  reflect (anyItem needsAttention items)
          (existsb statusIsNeedsAttention items).
Proof.
  apply iff_reflect. unfold anyItem, needsAttention. rewrite existsb_exists.
  split; intros [i [Hin Hi]]; exists i; split; trivial;
    unfold statusIsNeedsAttention in *; destruct (status i);
    congruence.
Qed.

(** [failedItems.length] counts the items whose status is [fail]. *)
Lemma failedItems_length (items : list ChecklistItem) :
  length (List.filter statusIsFail items) = failCount items.
Proof.
  induction items as [|i rest IH]; simpl; trivial.
  unfold statusIsFail at 1. destruct (status i); simpl; congruence.
Qed.

Lemma failCount_pos (items : list ChecklistItem) :
  (0 < failCount items)%nat <-> anyItem failed items.
Proof.
  unfold anyItem, failed. induction items as [|i rest IH]; simpl.
  - split; [lia | intros [? [[] _]]].
  - destruct (status i) eqn:Hs.
    + rewrite IH. split.
      * intros [j [Hin Hj]]. exists j. auto.
      * intros [j [[->|Hin] Hj]]; [congruence | exists j; auto].
    + split; [intros _; exists i; auto | lia].
    + rewrite IH. split.
      * intros [j [Hin Hj]]. exists j. auto.
      * intros [j [[->|Hin] Hj]]; [congruence | exists j; auto].
Qed.

Lemma criticalFailures_reflect (items : list ChecklistItem) :
  reflect
    (anyItem failedCritically items)
    (0 <? length (List.filter severityIsCritical
                    (List.filter statusIsFail items)))%nat.
Proof.
  apply iff_reflect. unfold anyItem, failedCritically.
  rewrite Nat.ltb_lt. split.
  - intros [i [Hin [Hf Hc]]].
    assert (Hi : In i (List.filter severityIsCritical
                         (List.filter statusIsFail items))).
    { apply filter_In. split.
      - apply filter_In. split; trivial.
        unfold statusIsFail. now rewrite Hf.
      - unfold severityIsCritical. now rewrite Hc. }
    destruct (List.filter severityIsCritical
                (List.filter statusIsFail items));
      [destruct Hi | simpl; lia].
  - intros Hlen.
    destruct (List.filter severityIsCritical
                (List.filter statusIsFail items)) as [|i l] eqn:Hl;
      [simpl in Hlen; lia |].
    assert (Hi : In i (i :: l)) by (left; trivial).
    rewrite <- Hl in Hi.
    apply filter_In in Hi as [Hi Hc]. apply filter_In in Hi as [Hin Hf].
    exists i. split; trivial.
    unfold statusIsFail in Hf. unfold severityIsCritical in Hc.
    destruct (status i); try discriminate.
    destruct (item_severity i) as [[]|]; try discriminate. auto.
Qed.

Lemma manyFailures_reflect (items : list ChecklistItem) :
  reflect (3 < failCount items)%nat
          (3 <? length (List.filter statusIsFail items))%nat.
Proof.
  rewrite failedItems_length. apply iff_reflect.
  symmetry. apply Nat.ltb_lt.
Qed.

Lemma someFailure_reflect (items : list ChecklistItem) :
  reflect (anyItem failed items)
          (0 <? length (List.filter statusIsFail items))%nat.
Proof.
  rewrite failedItems_length. apply iff_reflect.
  rewrite Nat.ltb_lt. symmetry. apply failCount_pos.
Qed.

(** The rules of the reference definition single out one condition. *)
Lemma assessCondition_deterministic
    (damages : list DamageReport) (items : list ChecklistItem)
    (c1 c2 : Condition) :
  assessCondition damages items c1 ->
  assessCondition damages items c2 ->
  c1 = c2.
Proof.
  intros H1 H2. destruct H1; destruct H2; trivial; tauto.
Qed.

(** The code satisfies the reference definition. *)
Lemma determinOverallCondition_sound
    (damages : list DamageReport) (items : list ChecklistItem) :
  assessCondition damages items (determinOverallCondition damages items).
Proof.
  unfold determinOverallCondition.
  destruct (anyDamage_reflect SevCritical damages) as [H1|H1];
    [now apply rule1 |].
  destruct (anyDamage_reflect SevMajor damages) as [H2|H2];
    [now apply rule2 |].
  destruct (criticalFailures_reflect items) as [H3|H3];
    [now apply rule3 |].
  destruct (manyFailures_reflect items) as [H4|H4];
    [now apply rule4 |].
  destruct (anyDamage_reflect SevModerate damages) as [H5|H5];
    [apply rule5; auto |].
  destruct (needsAttention_reflect items) as [H5'|H5'];
    [apply rule5; auto |].
  cbn [orb].
  destruct (anyDamage_reflect SevMinor damages) as [H6|H6];
    [apply rule6; tauto |].
  destruct (someFailure_reflect items) as [H6'|H6'];
    [apply rule6; tauto |].
  apply rule7; tauto.
Qed.

(** C1: [determinOverallCondition] returns [c] exactly when the rules of
    section 4.2, read in strict priority order, give [c]; a damage list
    holding both a critical and a minor severity yields [damaged]; empty
    damages and an empty checklist yield [excellent]. *)
Theorem determinOverallCondition_is_assessCondition :
  (forall damages items c,
      determinOverallCondition damages items = c
      <-> assessCondition damages items c)
  /\ (forall damages items,
        anyDamage SevCritical damages ->
        anyDamage SevMinor damages ->
        determinOverallCondition damages items = Damaged)
  /\ determinOverallCondition [] [] = Excellent.
Proof.
  split; [|split].
  - intros damages items c. split.
    + intros <-. apply determinOverallCondition_sound.
    + intros Hc. eapply assessCondition_deterministic; [|exact Hc].
      apply determinOverallCondition_sound.
  - intros damages items Hcrit _.
    eapply assessCondition_deterministic;
      [apply determinOverallCondition_sound | now apply rule1].
  - reflexivity.
Qed.

End ConditionAssessor.

(** ** Odometer validation *)

Section OdometerValidation.
Import InspectionService.

(** The result for a vehicle that exists, by the position of the new
    reading relative to the current one. *)
Lemma validateOdometerReading_found
    (docs : gmap string VehicleData) (vehicleId : string)
    (vehicleData : VehicleData) (newReading : Z) :
  docs !! vehicleId = Some vehicleData ->
  let current := JS.orZero (currentOdometer vehicleData) in
  validateOdometerReading (Vehicles docs) vehicleId newReading =
    {| isValid := negb (newReading <? current);
       errors :=
         if newReading <? current then [lowerReadingError current] else [];
       warnings :=
         if 1000 <? newReading - current
         then [highIncreaseWarning (newReading - current)] else [] |}.
Proof.
  intros Hdoc current. unfold validateOdometerReading. rewrite Hdoc.
  fold current. destruct (newReading <? current); reflexivity.
Qed.

(** C2, as amended: for an existing vehicle whose current odometer is
    [previousReading] and a new reading strictly above
    [previousReading + 1000], the result carries the high-increase warning
    and is still valid, with no error. *)
Theorem validateOdometerReading_high_increase
    (docs : gmap string VehicleData) (vehicleId : string)
    (vehicleData : VehicleData) (previousReading newReading : Z) :
  docs !! vehicleId = Some vehicleData ->
  currentOdometer vehicleData = Some previousReading ->
  newReading > previousReading + 1000 ->
  let r := validateOdometerReading (Vehicles docs) vehicleId newReading in
  warnings r = [highIncreaseWarning (newReading - previousReading)]
  /\ warnings r <> []
  /\ isValid r = true
  /\ errors r = [].
Proof.
  intros Hdoc Hcur Hhigh r. subst r.
  rewrite (validateOdometerReading_found _ _ _ _ Hdoc), Hcur. simpl.
  destruct (Z.ltb_spec newReading previousReading); [lia|].
  destruct (Z.ltb_spec 1000 (newReading - previousReading)); [|lia].
  repeat split; auto; discriminate.
Qed.

Lemma validateOdometerReading_high_increase_witness :
  warnings (validateOdometerReading Fleet.firestore "AFG7557" 47000)
    = ["Unusually high mileage increase detected (2000 km)"]
  /\ isValid (validateOdometerReading Fleet.firestore "AFG7557" 47000)
     = true.
Proof.
  destruct (validateOdometerReading_high_increase
              {[ "AFG7557" := {| currentOdometer := Some 45000 |} ]}
              "AFG7557" {| currentOdometer := Some 45000 |}
              45000 47000) as (Hw & _ & Hv & _).
  - reflexivity.
  - reflexivity.
  - lia.
  - split; [exact Hw | exact Hv].
Defined.

(** C2, as stated, fails on the boundary: an increase of exactly 1000
    satisfies [newReading >= previousReading + 1000] and produces no
    warning. *)
Lemma validateOdometerReading_no_warning_at_1000 :
  46000 >= 45000 + 1000
  /\ warnings (validateOdometerReading Fleet.firestore "AFG7557" 46000) = []
  /\ ~ (forall (docs : gmap string VehicleData) (vehicleId : string)
               (vehicleData : VehicleData) (previousReading newReading : Z),
          docs !! vehicleId = Some vehicleData ->
          currentOdometer vehicleData = Some previousReading ->
          newReading >= previousReading + 1000 ->
          warnings (validateOdometerReading (Vehicles docs) vehicleId
                                            newReading) <> []).
Proof.
  split; [lia|]. split; [reflexivity|].
  intros Hclaim.
  apply (Hclaim {[ "AFG7557" := {| currentOdometer := Some 45000 |} ]}
                "AFG7557" {| currentOdometer := Some 45000 |} 45000 46000);
    [reflexivity | reflexivity | lia | reflexivity].
Qed.

(** C5: for an existing vehicle whose current odometer is
    [previousReading], every new reading below it is invalid, its only
    error is the reading-cannot-be-lower message, and there is no
    warning. *)
Theorem validateOdometerReading_lower_reading
    (docs : gmap string VehicleData) (vehicleId : string)
    (vehicleData : VehicleData) (previousReading newReading : Z) :
  docs !! vehicleId = Some vehicleData ->
  currentOdometer vehicleData = Some previousReading ->
  newReading < previousReading ->
  let r := validateOdometerReading (Vehicles docs) vehicleId newReading in
  isValid r = false
  /\ errors r = [lowerReadingError previousReading]
  /\ In (lowerReadingError previousReading) (errors r)
  /\ errors r <> []
  /\ warnings r = [].
Proof.
  intros Hdoc Hcur Hlow r. subst r.
  rewrite (validateOdometerReading_found _ _ _ _ Hdoc), Hcur. simpl.
  destruct (Z.ltb_spec newReading previousReading); [|lia].
  destruct (Z.ltb_spec 1000 (newReading - previousReading)); [lia|].
  simpl. repeat split; auto; discriminate.
Qed.

Lemma validateOdometerReading_lower_reading_witness :
  isValid (validateOdometerReading Fleet.firestore "AFG7557" 44950) = false
  /\ errors (validateOdometerReading Fleet.firestore "AFG7557" 44950)
     = ["Reading cannot be lower than current reading (45000 km)"].
Proof.
  destruct (validateOdometerReading_lower_reading
              {[ "AFG7557" := {| currentOdometer := Some 45000 |} ]}
              "AFG7557" {| currentOdometer := Some 45000 |}
              45000 44950) as (Hv & He & _).
  - reflexivity.
  - reflexivity.
  - lia.
  - split; [exact Hv | exact He].
Defined.

(** C9: whatever the store answers and whatever the new reading, the
    result never has both an error and a warning. *)
Theorem validateOdometerReading_errors_warnings_exclusive
    (db : Firestore) (vehicleId : string) (newReading : Z) :
  let r := validateOdometerReading db vehicleId newReading in
  (errors r = [] \/ warnings r = [])
  /\ ~ (errors r <> [] /\ warnings r <> []).
Proof.
  intros r.
  assert (H : errors r = [] \/ warnings r = []).
  { subst r. destruct db as [|docs]; simpl; [now right|].
    destruct (docs !! vehicleId) as [vehicleData|] eqn:Hdoc; simpl;
      [|now right].
    set (current := JS.orZero (currentOdometer vehicleData)).
    destruct (Z.ltb_spec newReading current); [|now left].
    destruct (Z.ltb_spec 1000 (newReading - current)); [lia|].
    now right. }
  split; [exact H|]. intros [He Hw]. destruct H; contradiction.
Qed.

(** [isValid] is [errors.length === 0] on every path. *)
Lemma validateOdometerReading_isValid
    (db : Firestore) (vehicleId : string) (newReading : Z) :
  let r := validateOdometerReading db vehicleId newReading in
  isValid r = true <-> errors r = [].
Proof.
  intros r. subst r. destruct db as [|docs]; simpl.
  - split; discriminate.
  - destruct (docs !! vehicleId) as [vehicleData|]; simpl.
    + destruct (_ <? _); simpl; split; trivial; discriminate.
    + split; discriminate.
Qed.

End OdometerValidation.

(** ** Damage reports *)

Section DamageReports.
Import InspectionService.

(** C10: [repairRequired] holds exactly when [hasDamage] holds and the
    severity is major or critical; it is false without damage, without a
    severity, and for the minor and moderate severities. *)
Theorem createDamageReport_repairRequired
    (now : Z) (random component : string) (hasDamage : bool)
    (severity : option DamageSeverity)
    (description : option string) (photos : option (list string)) :
  let report :=
    createDamageReport now random component hasDamage severity
                       description photos in
  (repairRequired report = true
     <-> hasDamage = true
         /\ (severity = Some SevMajor \/ severity = Some SevCritical))
  /\ (hasDamage = false -> repairRequired report = false)
  /\ (severity = None \/ severity = Some SevMinor
      \/ severity = Some SevModerate ->
      repairRequired report = false).
Proof.
  intros report. subst report. simpl.
  destruct hasDamage, severity as [[]|]; simpl;
    (split; [split; [intros H; try discriminate H; auto
                    | intros [H1 [H2|H2]]; congruence]
            | split; [congruence | intros [H|[H|H]]; congruence]]).
Qed.

End DamageReports.

(** ** The service interval *)

Section ServiceInterval.
Import VehicleService.

(** [Math.ceil(a / b)] through integer division, for a positive divisor. *)
Lemma ceilDiv_floor (a b : Z) :
  0 < b -> ceilDiv a b = - ((- a) / b).
Proof.
  intros Hb. destruct b as [|p|p]; try lia.
  unfold ceilDiv, Qround.Qceiling, Qround.Qfloor.
  cbn. rewrite Z.mul_1_r. reflexivity.
Qed.

(** [ceilDiv a b] is the least number of [b]-sized days that cover [a]. *)
Lemma ceilDiv_least (a b : Z) :
  0 < b -> b * (ceilDiv a b - 1) < a <= b * ceilDiv a b.
Proof.
  intros Hb. rewrite ceilDiv_floor by trivial.
  pose proof (Z.div_mod (- a) b ltac:(lia)) as Hdm.
  pose proof (Z.mod_pos_bound (- a) b Hb) as Hmod.
  nia.
Qed.

(** C8: [getNextServiceInfo] returns the distance to the next service,
    reports the vehicle overdue exactly when that distance is not
    positive, and estimates zero days when overdue and otherwise the
    ceiling of the distance over the average daily distance (50); a
    vehicle standing exactly at its next-service odometer is overdue with
    distance 0 and 0 days. *)
Theorem getNextServiceInfo_spec (vehicle : Vehicle) :
  let info := getNextServiceInfo vehicle in
  kmUntilService info
    = nextServiceOdometer vehicle - currentOdometer vehicle
  /\ isOverdue info = (kmUntilService info <=? 0)
  /\ (isOverdue info = true <-> kmUntilService info <= 0)
  /\ daysUntilService info
     = (if isOverdue info then 0
        else ceilDiv (kmUntilService info) avgDailyKm)
  /\ (isOverdue info = false ->
      avgDailyKm * (daysUntilService info - 1) < kmUntilService info
      /\ kmUntilService info <= avgDailyKm * daysUntilService info)
  /\ (currentOdometer vehicle = nextServiceOdometer vehicle ->
      isOverdue info = true
      /\ kmUntilService info = 0
      /\ daysUntilService info = 0).
Proof.
  intros info. subst info. unfold getNextServiceInfo. cbn [kmUntilService isOverdue daysUntilService].
  set (km := nextServiceOdometer vehicle - currentOdometer vehicle).
  repeat split.
  - apply Z.leb_le.
  - apply Z.leb_le.
  - destruct (km <=? 0); [discriminate H|].
    apply ceilDiv_least. reflexivity.
  - destruct (km <=? 0); [discriminate H|].
    apply ceilDiv_least. reflexivity.
  - apply Z.leb_le. lia.
  - lia.
  - replace km with 0 by lia. reflexivity.
Qed.

Lemma getNextServiceInfo_spec_witness :
  getNextServiceInfo
    {| nextServiceOdometer := 50000; currentOdometer := 50000 |}
  = {| kmUntilService := 0; isOverdue := true; daysUntilService := 0 |}.
Proof.
  pose proof (getNextServiceInfo_spec
                {| nextServiceOdometer := 50000;
                   currentOdometer := 50000 |}) as H.
  cbv zeta in H. destruct H as (_ & _ & _ & _ & _ & H).
  specialize (H eq_refl). destruct H as (Ho & Hk & Hd).
  destruct (getNextServiceInfo _) as [k o d]. simpl in *.
  now subst.
Defined.

End ServiceInterval.

(** ** The record store *)

Section StoreFacts.
Import Lumi.

Lemma updateVehicle_Done (i : string) (p : Vehicle.patch) (st st' : Store) :
  updateVehicle i p st = Done st' ->
  exists v,
    vehicles st !! i = Some v
    /\ vehicles st' = <[i := Vehicle.merge p v]> (vehicles st)
    /\ vehicle_assignments st' = vehicle_assignments st
    /\ vehicle_inspections st' = vehicle_inspections st.
Proof.
  unfold updateVehicle. destruct (vehicles st !! i) as [v|]; [|discriminate].
  intros [= <-]. exists v. auto.
Qed.

Lemma updateAssignment_Done
    (i : string) (p : Assignment.patch) (st st' : Store) :
  updateAssignment i p st = Done st' ->
  exists a,
    vehicle_assignments st !! i = Some a
    /\ vehicle_assignments st'
       = <[i := Assignment.merge p a]> (vehicle_assignments st)
    /\ vehicles st' = vehicles st
    /\ vehicle_inspections st' = vehicle_inspections st.
Proof.
  unfold updateAssignment.
  destruct (vehicle_assignments st !! i) as [a|]; [|discriminate].
  intros [= <-]. exists a. auto.
Qed.

Lemma createInspection_Done (r : Inspection.t) (st st' : Store) :
  createInspection r st = Done st' ->
  vehicles st' = vehicles st
  /\ vehicle_assignments st' = vehicle_assignments st.
Proof.
  unfold createInspection. intros [= <-]. auto.
Qed.

(** A created assignment is stored under an identifier that was free. *)
Lemma createAssignment_Done (a : Assignment.t) (st : Store) :
  exists i st',
    createAssignment a st = Done st'
    /\ vehicle_assignments st !! i = None
    /\ vehicle_assignments st'
       = <[i := Assignment.withId i a]> (vehicle_assignments st)
    /\ vehicles st' = vehicles st
    /\ vehicle_inspections st' = vehicle_inspections st.
Proof.
  exists (fresh (dom (vehicle_assignments st))). eexists.
  split; [reflexivity|]. simpl. repeat split.
  apply not_elem_of_dom. apply is_fresh.
Qed.

Lemma andThen_Done (a : Attempt) (k : Store -> Attempt) (st' : Store) :
  andThen a k = Done st' -> exists st1, a = Done st1 /\ k st1 = Done st'.
Proof.
  destruct a as [st1|st1]; simpl; [|discriminate]. eauto.
Qed.

End StoreFacts.

(** ** Checkin *)

Section Checkin.
Import Lumi VehicleCheckin.

(** What a successful run of [handleCheckin] went through. *)
Lemma handleCheckin_success
    (now : string) (v : Vehicle.t) (s : State) (st st' : Store)
    (message : string) :
  handleCheckin now v s st = (st', ToastSuccess message) ->
  JS.falsy (endingMileage s) = false
  /\ JS.falsy (signature s) = false
  /\ JS.lt (JSParse.parseInt (endingMileage s))
           (Some (startMileageOf (currentAssignment s))) = false
  /\ exists st1 st2,
       match currentAssignment s with
       | Some a =>
           updateAssignment (Assignment._id a) (assignmentPatch now s) st
       | None => Done st
       end = Done st1
       /\ updateVehicle (Vehicle._id v) (vehiclePatch now s) st1 = Done st2
       /\ (if damageReported s
           then createInspection (inspectionRecord now v s) st2
           else Done st2) = Done st'.
Proof.
  unfold handleCheckin.
  destruct (JS.falsy (endingMileage s)); [discriminate|].
  destruct (JS.falsy (signature s)); [discriminate|]. simpl orb.
  destruct (JS.lt _ _); [discriminate|].
  destruct (andThen _ _) as [stD|stT] eqn:Hrun; [|discriminate].
  intros [= -> _]. repeat split.
  apply andThen_Done in Hrun as (st1 & H1 & Hrun).
  apply andThen_Done in Hrun as (st2 & H2 & H3).
  exists st1, st2. auto.
Qed.

(** The vehicle document after a successful checkin is the old one merged
    with [vehiclePatch]. *)
Lemma handleCheckin_vehicle
    (now : string) (v : Vehicle.t) (s : State) (st st' : Store)
    (message : string) :
  handleCheckin now v s st = (st', ToastSuccess message) ->
  exists old,
    vehicles st !! Vehicle._id v = Some old
    /\ vehicles st' !! Vehicle._id v
       = Some (Vehicle.merge (vehiclePatch now s) old).
Proof.
  intros Hrun.
  apply handleCheckin_success in Hrun
    as (_ & _ & _ & st1 & st2 & H1 & H2 & H3).
  apply updateVehicle_Done in H2 as (old & Hold & Hv2 & _).
  assert (Hv1 : vehicles st1 = vehicles st).
  { destruct (currentAssignment s) as [a|].
    - apply updateAssignment_Done in H1 as (? & _ & _ & Hv & _). exact Hv.
    - now injection H1 as <-. }
  assert (Hv' : vehicles st' = vehicles st2).
  { destruct (damageReported s).
    - apply createInspection_Done in H3 as [Hv _]. exact Hv.
    - now injection H3 as <-. }
  exists old. rewrite <- Hv1. split; trivial.
  rewrite Hv', Hv2. apply lookup_insert_eq.
Qed.

(** The assignment document after a successful checkin is the old one
    merged with [assignmentPatch]. *)
Lemma handleCheckin_assignment
    (now : string) (v : Vehicle.t) (s : State) (st st' : Store)
    (message : string) (a : Assignment.t) :
  currentAssignment s = Some a ->
  handleCheckin now v s st = (st', ToastSuccess message) ->
  exists old,
    vehicle_assignments st !! Assignment._id a = Some old
    /\ vehicle_assignments st' !! Assignment._id a
       = Some (Assignment.merge (assignmentPatch now s) old).
Proof.
  intros Ha Hrun.
  apply handleCheckin_success in Hrun
    as (_ & _ & _ & st1 & st2 & H1 & H2 & H3).
  rewrite Ha in H1.
  apply updateAssignment_Done in H1 as (old & Hold & Ha1 & _).
  apply updateVehicle_Done in H2 as (_ & _ & _ & Ha2 & _).
  assert (Ha' : vehicle_assignments st' = vehicle_assignments st2).
  { destruct (damageReported s).
    - apply createInspection_Done in H3 as [_ H]. exact H.
    - now injection H3 as <-. }
  exists old. split; trivial.
  rewrite Ha', Ha2, Ha1. apply lookup_insert_eq.
Qed.

(** A checkin whose required fields are filled, whose ending mileage is
    not below the starting one and whose documents exist goes through. *)
Lemma handleCheckin_accepts
    (now : string) (v : Vehicle.t) (s : State) (st : Store) :
  JS.falsy (endingMileage s) = false ->
  JS.falsy (signature s) = false ->
  JS.lt (JSParse.parseInt (endingMileage s))
        (Some (startMileageOf (currentAssignment s))) = false ->
  is_Some (vehicles st !! Vehicle._id v) ->
  (forall a, currentAssignment s = Some a ->
             is_Some (vehicle_assignments st !! Assignment._id a)) ->
  exists st',
    handleCheckin now v s st
    = (st', ToastSuccess "Vehicle checked in successfully").
Proof.
  intros He Hs Hlt [old Hold] Hassign. unfold handleCheckin.
  rewrite He, Hs, Hlt. simpl orb. cbv iota.
  assert (H1 : exists st1,
             match currentAssignment s with
             | Some a =>
                 updateAssignment (Assignment._id a)
                                  (assignmentPatch now s) st
             | None => Done st
             end = Done st1 /\ vehicles st1 = vehicles st).
  { destruct (currentAssignment s) as [a|]; [|eauto].
    destruct (Hassign a eq_refl) as [olda Holda].
    unfold updateAssignment. rewrite Holda. eauto. }
  destruct H1 as (st1 & -> & Hv1). simpl andThen.
  unfold updateVehicle at 1. rewrite Hv1, Hold. simpl andThen.
  destruct (damageReported s); simpl; eauto.
Qed.

End Checkin.

(** ** Checkin: what the claims say *)

Section CheckinClaims.
Import Lumi VehicleCheckin.

Lemma parseInt_Some_nonempty (text : string) (n : Z) :
  JSParse.parseInt text = Some n -> JS.falsy text = false.
Proof.
  destruct text; [discriminate | reflexivity].
Qed.

(** C3, as amended: after a successful checkin the vehicle is
    [available], whatever damage the form reports, and never
    [requires_attention]; its driver reference is the empty string and
    its mileage and fuel level are the values read from the form. *)
Theorem handleCheckin_releases_vehicle
    (now : string) (v : Vehicle.t) (s : State) (st st' : Store)
    (message : string) :
  handleCheckin now v s st = (st', ToastSuccess message) ->
  exists v',
    vehicles st' !! Vehicle._id v = Some v'
    /\ Vehicle.status v' = "available"
    /\ Vehicle.status v' <> "requires_attention"
    /\ Vehicle.currentDriverId v' = Some ""
    /\ Vehicle.currentMileage v' = JSParse.parseInt (endingMileage s)
    /\ Vehicle.fuelLevel v' = JSParse.parseInt (fuelLevel s).
Proof.
  intros Hrun.
  apply handleCheckin_vehicle in Hrun as (old & _ & Hnew).
  eexists. split; [exact Hnew|]. simpl. repeat split. discriminate.
Qed.

Lemma handleCheckin_releases_vehicle_witness :
  exists st' v',
    handleCheckin Fleet.now Fleet.vehicleInUse (Fleet.checkinForm "45120")
                  Fleet.storeDuringTrip
    = (st', ToastSuccess "Vehicle checked in successfully")
    /\ vehicles st' !! "veh-1" = Some v'
    /\ Vehicle.status v' = "available"
    /\ Vehicle.currentDriverId v' = Some ""
    /\ Vehicle.currentMileage v' = Some 45120
    /\ Vehicle.fuelLevel v' = Some 55.
Proof.
  eexists.
  destruct (handleCheckin_releases_vehicle
              Fleet.now Fleet.vehicleInUse (Fleet.checkinForm "45120")
              Fleet.storeDuringTrip _ _ eq_refl)
    as (v' & Hv & Hs & _ & Hd & Hm & Hf).
  exists v'. split; [reflexivity|]. auto.
Defined.

(** C3, as stated, fails: a checkin that reports critical damage leaves
    the vehicle [available]; and no reading of "indicates critical
    severity" that some successful checkin satisfies makes the handler
    set [requires_attention]. *)
Lemma handleCheckin_critical_damage_stays_available :
  (exists st',
      handleCheckin Fleet.now Fleet.vehicleInUse
                    Fleet.checkinFormCriticalDamage Fleet.storeDuringTrip
      = (st', ToastSuccess "Vehicle checked in successfully")
      /\ Vehicle.status <$> vehicles st' !! "veh-1" = Some "available")
  /\ ~ (exists critical : State -> bool,
          (exists now v s st st' message,
              handleCheckin now v s st = (st', ToastSuccess message)
              /\ critical s = true)
          /\ (forall now v s st st' message,
                 handleCheckin now v s st = (st', ToastSuccess message) ->
                 critical s = true ->
                 Vehicle.status <$> vehicles st' !! Vehicle._id v
                 = Some "requires_attention")).
Proof.
  split.
  - eexists. split; reflexivity.
  - intros (critical & (now & v & s & st & st' & message & Hrun & Hc)
                     & Hclaim).
    specialize (Hclaim _ _ _ _ _ _ Hrun Hc).
    apply handleCheckin_vehicle in Hrun as (old & _ & Hnew).
    rewrite Hnew in Hclaim. discriminate Hclaim.
Qed.

(** C6: on a checkin against an assignment that started at [start], with
    the signature given and an ending mileage that reads as [e]: the
    checkin goes through when [e] is not below [start], in particular
    when the two are equal; it is rejected, leaving the store as it was,
    when [e] is below [start]; and whenever it goes through, the
    assignment is [completed] with ending mileage [e] and total mileage
    [e - start]. *)
Theorem handleCheckin_mileage_rule
    (now : string) (v : Vehicle.t) (s : State) (st : Store)
    (a : Assignment.t) (start e : Z) :
  currentAssignment s = Some a ->
  Assignment.startingMileage a = Some start ->
  JSParse.parseInt (endingMileage s) = Some e ->
  JS.falsy (signature s) = false ->
  (start <= e ->
   is_Some (vehicles st !! Vehicle._id v) ->
   is_Some (vehicle_assignments st !! Assignment._id a) ->
   exists st',
     handleCheckin now v s st
     = (st', ToastSuccess "Vehicle checked in successfully"))
  /\ (e < start ->
      handleCheckin now v s st
      = (st, ToastError
               "Ending mileage cannot be less than starting mileage"))
  /\ (forall st' message,
         handleCheckin now v s st = (st', ToastSuccess message) ->
         start <= e
         /\ exists a' p,
              vehicle_assignments st' !! Assignment._id a = Some a'
              /\ Assignment.status a' = "completed"
              /\ Assignment.checkin a' = Some p
              /\ Assignment.endingMileage p = Some e
              /\ Assignment.totalMileage p = Some (e - start)).
Proof.
  intros Ha Hstart He Hsig.
  pose proof (parseInt_Some_nonempty _ _ He) as Hfilled.
  assert (Hs : startMileageOf (currentAssignment s) = start).
  { unfold startMileageOf. rewrite Ha. simpl. now rewrite Hstart. }
  split; [|split].
  - intros Hle Hv Hdoc. apply handleCheckin_accepts; trivial.
    + rewrite He, Hs. simpl. apply Z.ltb_ge. exact Hle.
    + intros a0 Ha0. rewrite Ha in Ha0. now injection Ha0 as <-.
  - intros Hlt. unfold handleCheckin.
    rewrite Hfilled, Hsig, He, Hs. simpl.
    destruct (Z.ltb_spec e start); [reflexivity | lia].
  - intros st' message Hrun.
    pose proof (handleCheckin_success _ _ _ _ _ _ Hrun)
      as (_ & _ & Hlt & _).
    rewrite He, Hs in Hlt. simpl in Hlt. apply Z.ltb_ge in Hlt.
    split; [exact Hlt|].
    destruct (handleCheckin_assignment _ _ _ _ _ _ _ Ha Hrun)
      as (old & _ & Hnew).
    eexists. eexists. split; [exact Hnew|].
    unfold assignmentPatch. rewrite He, Hs. simpl. auto.
Qed.

Lemma handleCheckin_mileage_rule_witness :
  (exists st',
      handleCheckin Fleet.now Fleet.vehicleInUse (Fleet.checkinForm "45000")
                    Fleet.storeDuringTrip
      = (st', ToastSuccess "Vehicle checked in successfully"))
  /\ handleCheckin Fleet.now Fleet.vehicleInUse (Fleet.checkinForm "44999")
                   Fleet.storeDuringTrip
     = (Fleet.storeDuringTrip,
        ToastError "Ending mileage cannot be less than starting mileage").
Proof.
  split.
  - destruct (handleCheckin_mileage_rule
                Fleet.now Fleet.vehicleInUse (Fleet.checkinForm "45000")
                Fleet.storeDuringTrip Fleet.activeAssignment 45000 45000
                eq_refl eq_refl eq_refl eq_refl) as (Hok & _ & _).
    apply Hok.
    + lia.
    + eexists. reflexivity.
    + eexists. reflexivity.
  - destruct (handleCheckin_mileage_rule
                Fleet.now Fleet.vehicleInUse (Fleet.checkinForm "44999")
                Fleet.storeDuringTrip Fleet.activeAssignment 45000 44999
                eq_refl eq_refl eq_refl eq_refl) as (_ & Hrej & _).
    apply Hrej. lia.
Defined.

End CheckinClaims.

(** ** Checkout *)

Section Checkout.
Import Lumi VehicleCheckout.

(** The form, and with it the handler, is reached only for a loaded,
    available vehicle. *)
Lemma render_CheckoutForm (loading : bool) (s : State) (v : Vehicle.t) :
  render loading s = CheckoutForm v <->
  loading = false /\ vehicle s = Some v /\ Vehicle.status v = "available".
Proof.
  unfold render. destruct loading.
  - split; [discriminate | intros [? _]; discriminate].
  - destruct (vehicle s) as [v0|].
    + destruct (String.eqb_spec (Vehicle.status v0) "available") as [Hs|Hs];
        simpl.
      * split; [intros [= <-]; auto | intros (_ & [= <-] & _); trivial].
      * split; [discriminate | intros (_ & [= <-] & Hv); contradiction].
    + split; [discriminate | intros (_ & ? & _); discriminate].
Qed.

(** C7: when the vehicle held by the page has a status other than
    [available], a checkout attempt is refused whatever the form
    contains: the store is left as it was, so no assignment is created
    and the vehicle record is unchanged, and once the page has loaded the
    refusal is the "Vehicle Not Available" screen. *)
Theorem attemptCheckout_refused_unless_available
    (now : string) (toISO : string -> option string)
    (loading : bool) (s : State) (st : Store) (v : Vehicle.t) :
  vehicle s = Some v ->
  Vehicle.status v <> "available" ->
  (exists shown,
      attemptCheckout now toISO loading s st = (st, Refused shown))
  /\ (loading = false ->
      attemptCheckout now toISO loading s st
      = (st, Refused (VehicleNotAvailable (Vehicle.status v))))
  /\ vehicle_assignments (fst (attemptCheckout now toISO loading s st))
     = vehicle_assignments st
  /\ vehicles (fst (attemptCheckout now toISO loading s st))
     = vehicles st.
Proof.
  intros Hv Hstatus.
  assert (Hrender : render loading s
                    = if loading then Loading
                      else VehicleNotAvailable (Vehicle.status v)).
  { unfold render. rewrite Hv.
    destruct (String.eqb_spec (Vehicle.status v) "available");
      [contradiction | reflexivity]. }
  unfold attemptCheckout. rewrite Hrender.
  destruct loading; simpl; repeat split; eauto; discriminate.
Qed.

Lemma attemptCheckout_refused_unless_available_witness :
  attemptCheckout Fleet.now Some false
                  (Fleet.checkoutForm Fleet.vehicleInUse)
                  Fleet.storeDuringTrip
  = (Fleet.storeDuringTrip, Refused (VehicleNotAvailable "in_use")).
Proof.
  destruct (attemptCheckout_refused_unless_available
              Fleet.now Some false (Fleet.checkoutForm Fleet.vehicleInUse)
              Fleet.storeDuringTrip Fleet.vehicleInUse eq_refl)
    as (_ & Hshown & _).
  - discriminate.
  - apply Hshown. reflexivity.
Defined.

(** Once the form is filled and signed, the handler consults nothing but
    the store: it creates an active assignment and marks the vehicle
    [in_use]. *)
Lemma handleCheckout_goes_through
    (now : string) (toISO : string -> option string)
    (v old : Vehicle.t) (s : State) (st : Store) :
  buttonDisabled s = false ->
  is_Some (estimatedReturnDateOf toISO s) ->
  vehicles st !! Vehicle._id v = Some old ->
  exists st' i a,
    handleCheckout now toISO v s st
    = (st', ToastSuccess "Vehicle checked out successfully")
    /\ Vehicle.status <$> vehicles st' !! Vehicle._id v = Some "in_use"
    /\ vehicle_assignments st !! i = None
    /\ vehicle_assignments st' !! i = Some a
    /\ Assignment.status a = "active".
Proof.
  intros Hen [date Hdate] Hold. unfold buttonDisabled in Hen.
  repeat (apply orb_false_elim in Hen as [Hen ?]).
  unfold handleCheckout.
  repeat match goal with H : JS.falsy _ = false |- _ => rewrite H; clear H end.
  simpl orb. cbv iota. rewrite Hdate.
  match goal with
  | |- context [createAssignment ?d st] =>
      destruct (createAssignment_Done d st)
        as (i & st1 & -> & Hfree & Ha1 & Hv1 & _)
  end.
  simpl andThen. unfold updateVehicle. rewrite Hv1, Hold.
  eexists. exists i. eexists. split; [reflexivity|]. simpl.
  rewrite lookup_insert_eq, Ha1, lookup_insert_eq. auto.
Qed.

(** C4 fails on the code: a vehicle that stands at its next-service
    odometer is overdue according to [getNextServiceInfo], and yet the
    checkout of that vehicle, available and with every field valid, goes
    through: an active assignment is created and the vehicle is
    [in_use]. *)
Theorem attemptCheckout_ignores_overdue_service :
  VehicleService.isOverdue
    (VehicleService.getNextServiceInfo Fleet.overdueService) = true
  /\ exists st' i a,
       attemptCheckout Fleet.now Some false
                       (Fleet.checkoutForm Fleet.availableVehicle)
                       Fleet.storeBeforeCheckout
       = (st', Handled (ToastSuccess "Vehicle checked out successfully"))
       /\ Vehicle.status <$> vehicles st' !! "veh-1" = Some "in_use"
       /\ vehicle_assignments st' !! i = Some a
       /\ Assignment.status a = "active"
       /\ Assignment.vehicleId a = "AFG7557".
Proof.
  split; [reflexivity|].
  eexists. exists "0". eexists.
  split; [vm_compute; reflexivity|].
  split; [reflexivity|].
  split; [vm_compute; reflexivity|].
  split; reflexivity.
Qed.

End Checkout.

(** ** The end-to-end scenarios of the specification *)

Section Scenarios.
Import Lumi.

(** Four failed items, none critical, and no damage: rule 4 gives [fair];
    it still does once a fifth item needs attention. *)
Example four_failures_fair :
  let failedItem name :=
    InspectionService.mkChecklistItem
      name InspectionService.Fail None (Some InspectionService.ItemLow) in
  let fourFailures :=
    [failedItem "lights"; failedItem "tyres"; failedItem "wipers";
     failedItem "horn"] in
  InspectionService.determinOverallCondition [] fourFailures
  = InspectionService.Fair
  /\ InspectionService.determinOverallCondition
       []
       (fourFailures
          ++ [InspectionService.mkChecklistItem
                "mirrors" InspectionService.NeedsAttention None None])
     = InspectionService.Fair.
Proof.
  split; reflexivity.
Qed.

(** Checkout at 45000 with 70% fuel, then checkin at 45120 with 55%: the
    vehicle goes [in_use] and comes back [available] at 45120, and the
    assignment ends [completed] with a total mileage of 120. *)
Example checkout_then_checkin :
  exists st1 st2 v1 v2 i a p,
    VehicleCheckout.attemptCheckout
      Fleet.now Some false (Fleet.checkoutForm Fleet.availableVehicle)
      Fleet.storeBeforeCheckout
    = (st1, VehicleCheckout.Handled
              (ToastSuccess "Vehicle checked out successfully"))
    /\ vehicles st1 !! "veh-1" = Some v1
    /\ Vehicle.status v1 = "in_use"
    /\ vehicle_assignments st1 !! i = Some a
    /\ Assignment.status a = "active"
    /\ VehicleCheckin.handleCheckin
         Fleet.now v1
         {| VehicleCheckin.vehicle := Some v1;
            VehicleCheckin.currentAssignment := Some a;
            VehicleCheckin.endingMileage := "45120";
            VehicleCheckin.fuelLevel := "55";
            VehicleCheckin.vehicleCondition := CondGood;
            VehicleCheckin.damageReported := false;
            VehicleCheckin.damageDescription := "";
            VehicleCheckin.tripNotes := "";
            VehicleCheckin.signature := "D1";
            VehicleCheckin.submitting := false |}
         st1
       = (st2, ToastSuccess "Vehicle checked in successfully")
    /\ vehicles st2 !! "veh-1" = Some v2
    /\ Vehicle.status v2 = "available"
    /\ Vehicle.currentMileage v2 = Some 45120
    /\ Assignment.status <$> vehicle_assignments st2 !! i = Some "completed"
    /\ (vehicle_assignments st2 !! i) ≫= Assignment.checkin = Some p
    /\ Assignment.totalMileage p = Some 120.
Proof.
  do 4 eexists. exists "0". do 2 eexists.
  split; [vm_compute; reflexivity|].
  split; [vm_compute; reflexivity|].
  split; [reflexivity|].
  split; [vm_compute; reflexivity|].
  split; [reflexivity|].
  split; [vm_compute; reflexivity|].
  split; [vm_compute; reflexivity|].
  split; [reflexivity|].
  split; [reflexivity|].
  split; [vm_compute; reflexivity|].
  split; [vm_compute; reflexivity|].
  reflexivity.
Qed.

End Scenarios.

(** ** More on the condition assessor *)

Section AssessorFacts.
Import InspectionService Assessor.

Lemma anyDamage_Permutation (s : DamageSeverity) (l l' : list DamageReport) :
  Permutation l l' -> anyDamage s l <-> anyDamage s l'.
Proof.
  intros Hp. unfold anyDamage.
  split; intros [d [Hin Hd]]; exists d; split; trivial.
  - eapply Permutation_in; eauto.
  - eapply Permutation_in; [symmetry|]; eauto.
Qed.

Lemma anyItem_Permutation (P : ChecklistItem -> Prop)
    (l l' : list ChecklistItem) :
  Permutation l l' -> anyItem P l <-> anyItem P l'.
Proof.
  intros Hp. unfold anyItem.
  split; intros [d [Hin Hd]]; exists d; split; trivial.
  - eapply Permutation_in; eauto.
  - eapply Permutation_in; [symmetry|]; eauto.
Qed.

Lemma failCount_Permutation (l l' : list ChecklistItem) :
  Permutation l l' -> failCount l = failCount l'.
Proof.
  induction 1 as [|x l l' _ IH|x y l|l l' l'' _ IH1 _ IH2]; simpl.
  - reflexivity.
  - now rewrite IH.
  - destruct (status x), (status y); reflexivity.
  - congruence.
Qed.

Lemma assessCondition_Permutation
    (damages damages' : list DamageReport)
    (items items' : list ChecklistItem) (c : Condition) :
  Permutation damages damages' ->
  Permutation items items' ->
  assessCondition damages items c -> assessCondition damages' items' c.
Proof.
  intros Hd Hi H.
  pose proof (fun s => anyDamage_Permutation s _ _ Hd) as Ed.
  pose proof (fun P => anyItem_Permutation P _ _ Hi) as Ei.
  pose proof (failCount_Permutation _ _ Hi) as Ef.
  destruct H;
    [ apply rule1 | apply rule2 | apply rule3 | apply rule4
    | apply rule5 | apply rule6 | apply rule7 ];
    rewrite <- ?Ed, <- ?Ei, <- ?Ef; assumption.
Qed.

(** X1: the assessor does not depend on the order in which the damage
    reports and the checklist items are listed. *)
Theorem determinOverallCondition_order_irrelevant
    (damages damages' : list DamageReport)
    (items items' : list ChecklistItem) :
  Permutation damages damages' ->
  Permutation items items' ->
  determinOverallCondition damages items
  = determinOverallCondition damages' items'.
Proof.
  intros Hd Hi.
  eapply assessCondition_deterministic;
    [|apply determinOverallCondition_sound].
  eapply assessCondition_Permutation; eauto.
  apply determinOverallCondition_sound.
Qed.

End AssessorFacts.

Section AssessorMonotone.
Import InspectionService Assessor.

(** X2: one more damage report, or one more checklist item, never makes
    the overall condition better. *)
Theorem determinOverallCondition_monotone
    (d : DamageReport) (i : ChecklistItem)
    (damages : list DamageReport) (items : list ChecklistItem) :
  (rank (determinOverallCondition damages items)
   <= rank (determinOverallCondition (d :: damages) items))%nat
  /\ (rank (determinOverallCondition damages items)
      <= rank (determinOverallCondition damages (i :: items)))%nat.
Proof.
  split; unfold determinOverallCondition.
  - cbn [existsb].
    generalize (existsb (severityIs SevCritical) damages),
               (existsb (severityIs SevMajor) damages),
               (existsb (severityIs SevModerate) damages),
               (existsb (severityIs SevMinor) damages),
               (existsb statusIsNeedsAttention items),
               (0 <? length (List.filter severityIsCritical
                               (List.filter statusIsFail items)))%nat,
               (3 <? length (List.filter statusIsFail items))%nat,
               (0 <? length (List.filter statusIsFail items))%nat.
    unfold severityIs.
    destruct (severity d) as [[]|]; cbn [DamageSeverity_eqb orb];
      intros [] [] [] [] [] [] [] []; cbn; lia.
  - cbn [List.filter existsb].
    set (failedItems := List.filter statusIsFail items).
    generalize (existsb (severityIs SevCritical) damages),
               (existsb (severityIs SevMajor) damages),
               (existsb (severityIs SevModerate) damages),
               (existsb (severityIs SevMinor) damages),
               (existsb statusIsNeedsAttention items).
    intros crit major moderate minor attention.
    destruct (statusIsFail i); cbn [List.filter];
      destruct (severityIsCritical i); cbn [length];
      destruct (statusIsNeedsAttention i); cbn [orb];
      generalize (length (List.filter severityIsCritical failedItems)),
                 (length failedItems);
      intros m n;
      destruct crit, major, moderate, minor, attention; cbn [orb rank];
      try lia;
      repeat match goal with
             | |- context [(?a <? ?b)%nat] =>
                 destruct (Nat.ltb_spec a b)
             end; cbn [orb rank]; lia.
Qed.

End AssessorMonotone.

Section AssessorReading.
Import InspectionService Assessor.

(** X3: the result is [damaged] exactly when some report is critical, so
    no checklist, however bad, gives [damaged] on its own; and it is
    [excellent] exactly when no report carries a severity and every item
    passed. *)
Theorem determinOverallCondition_extremes
    (damages : list DamageReport) (items : list ChecklistItem) :
  (determinOverallCondition damages items = Damaged
   <-> anyDamage SevCritical damages)
  /\ (rank (determinOverallCondition [] items) <= rank Poor)%nat
  /\ (determinOverallCondition damages items = Excellent
      <-> Forall (fun d => severity d = None) damages
          /\ Forall (fun i => status i = Pass) items).
Proof.
  split; [|split].
  - split.
    + intros H. pose proof (determinOverallCondition_sound damages items) as S.
      rewrite H in S. inversion S. assumption.
    + intros H. eapply assessCondition_deterministic;
        [apply determinOverallCondition_sound | now apply rule1].
  - pose proof (determinOverallCondition_sound [] items) as S.
    destruct (determinOverallCondition [] items); cbn; try lia.
    inversion S as [[d [[] _]]| | | | | |].
  - split.
    + intros H. pose proof (determinOverallCondition_sound damages items) as S.
      rewrite H in S. inversion S as [| | | | | |N1 N2 N3 N4 N5 N6].
      split; apply List.Forall_forall.
      * intros d Hin. destruct (severity d) as [[]|] eqn:Hs; trivial;
          exfalso;
          [ apply N6; left | apply N5; left | apply N2 | apply N1 ];
          exists d; auto.
      * intros i Hin. destruct (status i) eqn:Hs; trivial; exfalso.
        -- apply N6. right. exists i. split; trivial.
        -- apply N5. right. exists i. split; trivial.
    + intros [Hd Hi]. rewrite List.Forall_forall in Hd, Hi.
      assert (Nd : forall s, ~ anyDamage s damages).
      { intros s [d [Hin Hs]]. rewrite (Hd d Hin) in Hs. discriminate. }
      assert (Ni : forall P : ChecklistItem -> Prop,
                 (forall i, P i -> status i <> Pass) -> ~ anyItem P items).
      { intros P HP [i [Hin Hp]]. now apply (HP i Hp), Hi. }
      assert (Nf : failCount items = 0%nat).
      { clear - Hi. induction items as [|i rest IH]; simpl; trivial.
        rewrite (Hi i) by (left; trivial). apply IH.
        intros j Hj. apply Hi. now right. }
      eapply assessCondition_deterministic;
        [apply determinOverallCondition_sound|].
      apply rule7; auto.
      * apply Ni. intros i [Hf _]. unfold failed in *. congruence.
      * lia.
      * intros [H|H]; [now apply (Nd SevModerate)|].
        revert H. apply Ni. unfold needsAttention. congruence.
      * intros [H|H]; [now apply (Nd SevMinor)|].
        revert H. apply Ni. unfold failed. congruence.
Qed.

Lemma existsb_filter_absorb {A : Type} (p q : A -> bool) (l : list A) :
  (forall x, p x = true -> q x = true) ->
  existsb p (List.filter q l) = existsb p l.
Proof.
  intros Hpq. induction l as [|x l IH]; simpl; trivial.
  destruct (q x) eqn:Hq; simpl.
  - now rewrite IH.
  - rewrite IH. destruct (p x) eqn:Hp; trivial.
    rewrite (Hpq x Hp) in Hq. discriminate.
Qed.

Lemma filter_filter_absorb {A : Type} (p q : A -> bool) (l : list A) :
  (forall x, p x = true -> q x = true) ->
  List.filter p (List.filter q l) = List.filter p l.
Proof.
  intros Hpq. induction l as [|x l IH]; simpl; trivial.
  destruct (q x) eqn:Hq; simpl.
  - now rewrite IH.
  - rewrite IH. destruct (p x) eqn:Hp; trivial.
    rewrite (Hpq x Hp) in Hq. discriminate.
Qed.

(** X4: the assessor reads nothing but severities and item outcomes:
    reports without a severity and items that passed can be dropped, and
    the [hasDamage] flag of a report is never consulted. *)
Theorem determinOverallCondition_reads_severities_only
    (damages : list DamageReport) (items : list ChecklistItem)
    (flag : bool) :
  determinOverallCondition (List.filter graded damages)
                           (List.filter flagged items)
  = determinOverallCondition damages items
  /\ determinOverallCondition (List.map (withHasDamage flag) damages) items
     = determinOverallCondition damages items.
Proof.
  split; unfold determinOverallCondition.
  - assert (Hs : forall s x, severityIs s x = true -> graded x = true).
    { intros s x. unfold severityIs, graded.
      destruct (severity x); [trivial | discriminate]. }
    rewrite !(existsb_filter_absorb _ graded) by apply Hs.
    rewrite (existsb_filter_absorb statusIsNeedsAttention flagged),
            (filter_filter_absorb statusIsFail flagged);
      trivial;
      intros x; unfold statusIsNeedsAttention, statusIsFail, flagged;
      destruct (status x); trivial.
  - assert (Hm : forall s, existsb (severityIs s)
                             (List.map (withHasDamage flag) damages)
                           = existsb (severityIs s) damages).
    { intros s. induction damages as [|d l IH]; simpl; trivial.
      now rewrite IH. }
    now rewrite !Hm.
Qed.

(** X5: a report that [createDamageReport] marks as requiring repair
    weighs at least [poor] in every inspection that contains it. *)
Theorem repairRequired_rates_poor_or_worse
    (now : Z) (random component : string) (hasDamage : bool)
    (severity : option DamageSeverity)
    (description : option string) (photos : option (list string))
    (damages : list DamageReport) (items : list ChecklistItem) :
  let report :=
    createDamageReport now random component hasDamage severity
                       description photos in
  repairRequired report = true ->
  In report damages ->
  (rank Poor <= rank (determinOverallCondition damages items))%nat.
Proof.
  intros report Hrep Hin.
  assert (Hsev : InspectionService.severity report = Some SevMajor
                 \/ InspectionService.severity report = Some SevCritical).
  { subst report. simpl in *. destruct hasDamage; [|discriminate].
    destruct severity as [[]|]; try discriminate; auto. }
  pose proof (determinOverallCondition_sound damages items) as S.
  destruct Hsev as [Hs|Hs].
  - inversion S as [|? | N1 N2|N1 N2|N1 N2|N1 N2|N1 N2]; cbn; try lia;
      exfalso; apply N2; exists report; auto.
  - inversion S as [|N1|N1|N1|N1|N1|N1]; cbn; try lia;
      exfalso; apply N1; exists report; auto.
Qed.

End AssessorReading.

Section OdometerThresholds.
Import InspectionService.

(** X6: a reading is valid exactly when the vehicle exists and the reading
    is not below its current odometer, an absent odometer counting as 0;
    and it draws a warning exactly when the vehicle exists and the reading
    exceeds the current odometer by more than 1000. *)
Theorem validateOdometerReading_thresholds
    (db : Firestore) (vehicleId : string) (newReading : Z) :
  let r := validateOdometerReading db vehicleId newReading in
  (isValid r = true
   <-> exists docs vehicleData,
         db = Vehicles docs
         /\ docs !! vehicleId = Some vehicleData
         /\ JS.orZero (currentOdometer vehicleData) <= newReading)
  /\ (warnings r <> []
      <-> exists docs vehicleData,
            db = Vehicles docs
            /\ docs !! vehicleId = Some vehicleData
            /\ JS.orZero (currentOdometer vehicleData) + 1000 < newReading).
Proof.
  intros r. subst r. destruct db as [|docs].
  - simpl. split; (split; [now intros | intros (? & ? & [=] & _)]).
  - destruct (docs !! vehicleId) as [vehicleData|] eqn:Hdoc.
    + rewrite (validateOdometerReading_found _ _ _ _ Hdoc). simpl.
      set (current := JS.orZero (currentOdometer vehicleData)).
      split; split.
      * intros Hv. exists docs, vehicleData. repeat split; trivial.
        fold current. destruct (Z.ltb_spec newReading current);
          [discriminate | lia].
      * intros (docs' & data' & [= <-] & Hdoc' & Hle).
        rewrite Hdoc in Hdoc'. injection Hdoc' as <-. fold current in Hle.
        destruct (Z.ltb_spec newReading current); [lia | reflexivity].
      * intros Hw. exists docs, vehicleData. repeat split; trivial.
        fold current.
        destruct (Z.ltb_spec 1000 (newReading - current));
          [lia | now contradiction Hw].
      * intros (docs' & data' & [= <-] & Hdoc' & Hlt).
        rewrite Hdoc in Hdoc'. injection Hdoc' as <-. fold current in Hlt.
        destruct (Z.ltb_spec 1000 (newReading - current));
          [discriminate | lia].
    + unfold validateOdometerReading. rewrite Hdoc. simpl.
      split; (split; [now intros | ]);
        intros (docs' & data' & [= <-] & Hdoc' & _); congruence.
Qed.

End OdometerThresholds.

Section ServiceDays.
Import VehicleService.

Lemma ceilDiv_monotone (a a' b : Z) :
  0 < b -> a <= a' -> ceilDiv a b <= ceilDiv a' b.
Proof.
  intros Hb Hle. rewrite !ceilDiv_floor by trivial.
  assert ((- a') / b <= (- a) / b) by (apply Z.div_le_mono; lia). lia.
Qed.

(** X7: the estimate of days is never negative, it is 0 exactly for an
    overdue vehicle, and a vehicle with more distance left never gets a
    shorter estimate. *)
Theorem getNextServiceInfo_days
    (vehicle vehicle' : Vehicle) :
  0 <= daysUntilService (getNextServiceInfo vehicle)
  /\ (daysUntilService (getNextServiceInfo vehicle) = 0
      <-> isOverdue (getNextServiceInfo vehicle) = true)
  /\ (kmUntilService (getNextServiceInfo vehicle)
      <= kmUntilService (getNextServiceInfo vehicle') ->
      daysUntilService (getNextServiceInfo vehicle)
      <= daysUntilService (getNextServiceInfo vehicle')).
Proof.
  unfold getNextServiceInfo.
  cbn [kmUntilService isOverdue daysUntilService].
  set (km := nextServiceOdometer vehicle - currentOdometer vehicle).
  set (km' := nextServiceOdometer vehicle' - currentOdometer vehicle').
  assert (Hpos : forall k, 0 < k -> 1 <= ceilDiv k avgDailyKm).
  { intros k Hk. pose proof (ceilDiv_least k avgDailyKm eq_refl) as H.
    unfold avgDailyKm in *. lia. }
  destruct (Z.leb_spec km 0) as [Hk|Hk].
  - split; [lia|]. split; [tauto|]. intros Hle.
    destruct (Z.leb_spec km' 0); [lia|].
    specialize (Hpos km'). lia.
  - specialize (Hpos km Hk) as Hd. split; [lia|]. split.
    + split; [lia | discriminate].
    + intros Hle. destruct (Z.leb_spec km' 0); [lia|].
      apply ceilDiv_monotone; [reflexivity | exact Hle].
Qed.

End ServiceDays.

(** ** Submitting and reviewing inspections *)

Section Submission.
Import InspectionService InspectionRecords.

(** X8: a submission succeeds exactly when both identifiers are given and
    the store accepts the document; a failed submission leaves the store
    as it was, carries an error message and no inspection identifier; and
    a missing identifier is reported before the store is even tried. *)
Theorem submitInspection_outcome
    (serverTime : Z) (clock : nat -> Z)
    (inspectionData : InspectionData) (db : Firestore) :
  let run := submitInspection serverTime clock inspectionData db in
  (success (snd run) = true
   <-> JS.falsy (d_vehicleId inspectionData) = false
       /\ JS.falsy (d_driverId inspectionData) = false
       /\ exists inspections, db = Serving inspections)
  /\ (success (snd run) = false ->
      fst run = db
      /\ inspectionId (snd run) = None
      /\ is_Some (error (snd run)))
  /\ (JS.falsy (d_vehicleId inspectionData) = true
      \/ JS.falsy (d_driverId inspectionData) = true ->
      run = (db, {| success := false;
                    inspectionId := None;
                    error := Some "Vehicle ID and Driver ID are required" |})).
Proof.
  intros run. subst run. unfold submitInspection.
  destruct (JS.falsy (d_vehicleId inspectionData)),
           (JS.falsy (d_driverId inspectionData)); cbn [orb].
  all: try (split; [split; [discriminate | intros (? & ? & _); discriminate]
                   | split; [intros _; cbn; eauto | reflexivity]]).
  destruct db as [thrown|inspections]; cbn.
  - split; [split; [discriminate | intros (_ & _ & ? & [=])]|].
    split; [eauto | intros [|]; discriminate].
  - split; [split; eauto|].
    split; [discriminate | intros [|]; discriminate].
Qed.

(** X9: a successful submission stores the document under an identifier
    that was free and returns that identifier; the stored document holds
    the condition that the assessor derives from the submitted damages and
    checklist, next to those; and the inspections already stored are
    untouched. *)
Theorem submitInspection_stores
    (serverTime : Z) (clock : nat -> Z)
    (inspectionData : InspectionData) (db db' : Firestore)
    (r : InspectionSubmissionResult) :
  submitInspection serverTime clock inspectionData db = (db', r) ->
  success r = true ->
  exists docRef before after doc,
    db = Serving before
    /\ db' = Serving after
    /\ inspectionId r = Some docRef
    /\ before !! docRef = None
    /\ after !! docRef = Some doc
    /\ i_vehicleId doc = d_vehicleId inspectionData
    /\ i_status doc = "completed"
    /\ damages (i_damageInspection doc) = d_damages inspectionData
    /\ completedChecklist (i_damageInspection doc)
       = d_checklistItems inspectionData
    /\ overallCondition (i_damageInspection doc)
       = determinOverallCondition (d_damages inspectionData)
                                  (d_checklistItems inspectionData)
    /\ (forall other, other <> docRef -> after !! other = before !! other).
Proof.
  unfold submitInspection.
  destruct (JS.falsy (d_vehicleId inspectionData) || _);
    [intros [= <- <-]; discriminate|].
  destruct db as [thrown|before]; [intros [= <- <-]; discriminate|].
  intros [= <- <-] _.
  exists (fresh (dom before)), before. eexists. eexists.
  split; [reflexivity|]. split; [reflexivity|]. split; [reflexivity|].
  split; [apply not_elem_of_dom, is_fresh|].
  split; [apply lookup_insert_eq|].
  cbn. repeat split; trivial.
  intros other Hother. now apply lookup_insert_ne.
Qed.

(** The litres of a 60 litre tank, rounded: a closed form. *)
Lemma estimatedLiters_closed_form (percentage : Z) :
  estimatedLiters percentage = (6 * percentage + 5) / 10.
Proof.
  unfold estimatedLiters, round, Qround.Qfloor. cbn.
  change (Z.pos (1 * 100 * 1 * 2)) with (10 * 20).
  change (Z.pos (1 * 100 * 1)) with 100.
  replace (percentage * 1 * 60 * 2 + 1 * 100)
    with ((6 * percentage + 5) * 20) by lia.
  apply Z.div_mul_cancel_r; lia.
Qed.

(** X10: for a percentage between 0 and 100 the estimated litres lie
    between 0 and 60, the estimate never decreases when the percentage
    grows, and it is within half a litre of 0.6 litres per point. *)
Theorem estimatedLiters_bounds (percentage percentage' : Z) :
  (0 <= percentage <= 100 -> 0 <= estimatedLiters percentage <= 60)
  /\ (percentage <= percentage' ->
      estimatedLiters percentage <= estimatedLiters percentage')
  /\ 6 * percentage - 5 < 10 * estimatedLiters percentage
     <= 6 * percentage + 5.
Proof.
  rewrite !estimatedLiters_closed_form.
  pose proof (Z.div_mod (6 * percentage + 5) 10 ltac:(lia)).
  pose proof (Z.mod_pos_bound (6 * percentage + 5) 10 ltac:(lia)).
  split; [|split].
  - intros Hp. lia.
  - intros Hle. apply Z.div_le_mono; lia.
  - lia.
Qed.

End Submission.

(** ** Printing and parsing numbers *)

Section ParseRoundTrip.

Lemma readDigits_acc_pos (d : Decimal.uint) (a : positive) :
  JSParse.readDigits 10 (Some (Z.pos a)) (NilEmpty.string_of_uint d)
  = Some (Z.pos (Pos.of_uint_acc d a)).
Proof.
  revert a.
  induction d as [|d IH|d IH|d IH|d IH|d IH|d IH|d IH|d IH|d IH|d IH];
    intros a; [reflexivity|..];
    cbn [NilEmpty.string_of_uint JSParse.readDigits Pos.of_uint_acc];
    match goal with
    | |- context [JSParse.digitValue 10 ?c] =>
        let v := eval vm_compute in (JSParse.digitValue 10 c) in
        change (JSParse.digitValue 10 c) with v
    end;
    cbn [JS.orZero]; rewrite <- IH; do 2 f_equal; cbn; lia.
Qed.

Lemma readDigits_acc_zero (d : Decimal.uint) :
  JSParse.readDigits 10 (Some 0) (NilEmpty.string_of_uint d)
  = Some (Z.of_N (Pos.of_uint d)).
Proof.
  induction d as [|d IH|d IH|d IH|d IH|d IH|d IH|d IH|d IH|d IH|d IH];
    [reflexivity|..];
    cbn [NilEmpty.string_of_uint JSParse.readDigits Pos.of_uint];
    match goal with
    | |- context [JSParse.digitValue 10 ?c] =>
        let v := eval vm_compute in (JSParse.digitValue 10 c) in
        change (JSParse.digitValue 10 c) with v
    end;
    cbn [JS.orZero]; [exact IH | ..];
    match goal with
    | |- JSParse.readDigits 10 (Some ?k) _ = _ =>
        let k' := eval vm_compute in k in change k with k'
    end; rewrite readDigits_acc_pos; reflexivity.
Qed.

Lemma noHexPrefix (d : Decimal.uint) :
  match NilEmpty.string_of_uint d with
  | String "0" (String "x" rest) => (16, rest)
  | String "0" (String "X" rest) => (16, rest)
  | _ => (10, NilEmpty.string_of_uint d)
  end = (10, NilEmpty.string_of_uint d).
Proof.
  destruct d as [|d|d|d|d|d|d|d|d|d|d]; try reflexivity.
  destruct d; reflexivity.
Qed.

Lemma readDigits_start (d : Decimal.uint) :
  d <> Decimal.Nil ->
  JSParse.readDigits 10 None (NilEmpty.string_of_uint d)
  = JSParse.readDigits 10 (Some 0) (NilEmpty.string_of_uint d).
Proof.
  destruct d; [congruence | reflexivity ..].
Qed.

Lemma skipWhiteSpace_uint (d : Decimal.uint) :
  JSParse.skipWhiteSpace (NilEmpty.string_of_uint d)
  = NilEmpty.string_of_uint d.
Proof.
  destruct d; reflexivity.
Qed.

Lemma signless_uint (d : Decimal.uint) :
  match NilEmpty.string_of_uint d with
  | String "-" rest => (-1, rest)
  | String "+" rest => (1, rest)
  | _ => (1, NilEmpty.string_of_uint d)
  end = (1, NilEmpty.string_of_uint d).
Proof.
  destruct d; reflexivity.
Qed.

Lemma parseInt_string_of_uint (d : Decimal.uint) :
  d <> Decimal.Nil ->
  JSParse.parseInt (NilEmpty.string_of_uint d) = Some (Z.of_N (Pos.of_uint d))
  /\ JSParse.parseInt (String "-" (NilEmpty.string_of_uint d))
     = Some (- Z.of_N (Pos.of_uint d)).
Proof.
  intros Hd. split; unfold JSParse.parseInt.
  - rewrite skipWhiteSpace_uint, signless_uint, noHexPrefix.
    rewrite readDigits_start, readDigits_acc_zero by trivial.
    cbn [option_map]. apply (f_equal Some). lia.
  - cbn [JSParse.skipWhiteSpace].
    change (JSParse.isWhiteSpace "-") with false. cbv iota.
    rewrite noHexPrefix.
    rewrite readDigits_start, readDigits_acc_zero by trivial.
    cbn [option_map]. apply (f_equal Some). lia.
Qed.

Lemma to_uint_nonnil (p : positive) : Pos.to_uint p <> Decimal.Nil.
Proof.
  intros Hnil. pose proof (DecimalPos.Unsigned.of_to p) as Hp.
  rewrite Hnil in Hp. discriminate Hp.
Qed.

Lemma string_of_uint_NilZero (d : Decimal.uint) :
  d <> Decimal.Nil ->
  NilZero.string_of_uint d = NilEmpty.string_of_uint d.
Proof.
  destruct d; [congruence | reflexivity ..].
Qed.

(** Reading back the decimal form of an integer gives the integer. *)
Lemma parseInt_numberToString (n : Z) :
  JSParse.parseInt (JS.numberToString n) = Some n.
Proof.
  unfold JS.numberToString.
  destruct n as [|p|p]; [reflexivity|..];
    cbn [Z.to_int NilZero.string_of_int];
    pose proof (DecimalPos.Unsigned.of_to p) as Hp;
    pose proof (to_uint_nonnil p) as Hd;
    destruct (parseInt_string_of_uint _ Hd) as [Hpos Hneg];
    rewrite string_of_uint_NilZero by trivial.
  - rewrite Hpos, Hp. reflexivity.
  - rewrite Hneg, Hp. reflexivity.
Qed.

Lemma parseInt_NaN : JSParse.parseInt (JSNumber.toString None) = None.
Proof. reflexivity. Qed.

(** X11: what [toString] prints, [parseInt] reads back: for every integer
    that JavaScript prints in decimal form, and for [NaN]. *)
Theorem parseInt_toString (x : option Z) :
  JSNumber.decimal x ->
  JSParse.parseInt (JSNumber.toString x) = x.
Proof.
  intros _. destruct x as [n|].
  - apply parseInt_numberToString.
  - apply parseInt_NaN.
Qed.


Lemma numberToString_injective (n m : Z) :
  JS.numberToString n = JS.numberToString m -> n = m.
Proof.
  intros H. apply (f_equal JSParse.parseInt) in H.
  rewrite !parseInt_numberToString in H. congruence.
Qed.


Lemma string_of_uint_no_underscore (d : Decimal.uint) :
  JSNumber.occurs "_" (NilEmpty.string_of_uint d) = false.
Proof.
  induction d; cbn; trivial.
Qed.

Lemma numberToString_no_underscore (n : Z) :
  JSNumber.occurs "_" (JS.numberToString n) = false.
Proof.
  unfold JS.numberToString. destruct n as [|p|p]; [reflexivity|..];
    cbn [Z.to_int NilZero.string_of_int];
    rewrite string_of_uint_NilZero by apply to_uint_nonnil;
    cbn [JSNumber.occurs]; apply string_of_uint_no_underscore.
Qed.

Lemma append_cons (x : ascii) (a b : string) :
  String x a ++ b = String x (a ++ b).
Proof. reflexivity. Qed.

Lemma append_nil (b : string) : "" ++ b = b.
Proof. reflexivity. Qed.

Lemma append_cancel (s a b : string) : s ++ a = s ++ b -> a = b.
Proof.
  induction s as [|x s IH]; rewrite ?append_nil, ?append_cons; trivial.
  intros [= H]. auto.
Qed.

(** Two strings joined by an underscore that neither left part contains
    split in one way only. *)
Lemma underscore_split (a c b d : string) :
  JSNumber.occurs "_" a = false ->
  JSNumber.occurs "_" c = false ->
  a ++ "_" ++ b = c ++ "_" ++ d ->
  a = c /\ b = d.
Proof.
  revert c. induction a as [|x a IH]; intros [|y c] Ha Hc Heq;
    cbn [JSNumber.occurs] in Ha, Hc;
    rewrite ?append_nil, ?append_cons, ?append_nil in Heq.
  - injection Heq as ->. auto.
  - injection Heq as <- _. discriminate Hc.
  - injection Heq as -> _. discriminate Ha.
  - injection Heq as -> Heq.
    apply orb_false_elim in Ha as [_ Ha].
    apply orb_false_elim in Hc as [_ Hc].
    destruct (IH c Ha Hc Heq) as [-> ->]. auto.
Qed.

End ParseRoundTrip.

Section VoiceNotes.
Import InspectionService InspectionRecords.

(** X12: the stored voice notes are as many as the submitted ones and
    their identifiers are pairwise distinct, whatever the clock reads
    while they are converted. *)
Theorem voiceNote_ids_distinct
    (serverTime : Z) (clock : nat -> Z) (inspectionData : InspectionData) :
  let notes :=
    i_voiceNotes (inspectionDocOf serverTime clock inspectionData) in
  length notes = length (d_voiceNotes inspectionData)
  /\ NoDup (List.map note_id notes).
Proof.
  intros notes. subst notes. cbn [inspectionDocOf i_voiceNotes].
  split; [apply length_imap|].
  apply NoDup_alt. intros i j x Hi Hj.
  change (List.map note_id ?l) with (note_id <$> l) in Hi, Hj.
  rewrite list_lookup_fmap, list_lookup_imap in Hi, Hj.
  destruct (d_voiceNotes inspectionData !! i) as [ni|]; [|discriminate].
  destruct (d_voiceNotes inspectionData !! j) as [nj|]; [|discriminate].
  cbn in Hi, Hj. injection Hi as Hi. injection Hj as Hj.
  rewrite <- Hj in Hi. apply append_cancel in Hi.
  apply underscore_split in Hi as [_ Hi];
    try apply numberToString_no_underscore.
  apply numberToString_injective in Hi. lia.
Qed.

End VoiceNotes.

Section Review.
Import InspectionService InspectionRecords.

(** X13: [updateInspectionStatus] answers [true] exactly when the store
    serves and knows the inspection; otherwise it changes nothing.  On
    success only that inspection changes: it takes the new status, keeps
    its damage assessment, and keeps the review notes and review date it
    had unless non-empty notes are given, which replace them. *)
Theorem updateInspectionStatus_effect
    (serverTime : Z) (inspectionId status : string)
    (reviewNotes : option string) (db : Firestore) :
  let run :=
    updateInspectionStatus serverTime inspectionId status reviewNotes db in
  (snd run = true
   <-> exists inspections doc,
         db = Serving inspections /\ inspections !! inspectionId = Some doc)
  /\ (snd run = false -> fst run = db)
  /\ (forall inspections doc,
         db = Serving inspections ->
         inspections !! inspectionId = Some doc ->
         exists after doc',
           fst run = Serving after
           /\ after !! inspectionId = Some doc'
           /\ i_status doc' = status
           /\ i_damageInspection doc' = i_damageInspection doc
           /\ (reviewNotes = None \/ reviewNotes = Some "" ->
               i_reviewNotes doc' = i_reviewNotes doc
               /\ i_reviewedAt doc' = i_reviewedAt doc)
           /\ (forall notes,
                  reviewNotes = Some notes -> notes <> "" ->
                  i_reviewNotes doc' = Some notes
                  /\ i_reviewedAt doc' = Some serverTime)
           /\ (forall other,
                  other <> inspectionId ->
                  after !! other = inspections !! other)).
Proof.
  intros run. subst run. unfold updateInspectionStatus.
  destruct db as [thrown|inspections]; cbn.
  - split; [split; [discriminate | intros (? & ? & [=] & _)]|].
    split; [trivial | intros ? ? [=]].
  - destruct (inspections !! inspectionId) as [doc|] eqn:Hdoc; cbn.
    + split; [split; eauto|]. split; [discriminate|].
      intros inspections' doc' [= <-] Hdoc'.
      rewrite Hdoc in Hdoc'. injection Hdoc' as <-.
      eexists. eexists. split; [reflexivity|].
      split; [apply lookup_insert_eq|]. cbn.
      split; [trivial|]. split; [trivial|]. split; [|split].
      * intros [->| ->]; cbn; auto.
      * intros notes -> Hnotes. destruct notes; [congruence|]. cbn. auto.
      * intros other Hother. now apply lookup_insert_ne.
    + split; [split; [discriminate|]|].
      * intros (inspections' & doc' & [= <-] & Hdoc'). congruence.
      * split; [trivial|]. intros inspections' doc' [= <-]. congruence.
Qed.

(** X14: the identifier that a successful submission returns can be
    reviewed at once: [updateInspectionStatus] on it succeeds, and the
    inspection keeps the condition derived at submission. *)
Theorem submitInspection_then_review
    (serverTime reviewTime : Z) (clock : nat -> Z)
    (inspectionData : InspectionData) (db db' : Firestore)
    (r : InspectionSubmissionResult) (docRef status : string)
    (reviewNotes : option string) :
  submitInspection serverTime clock inspectionData db = (db', r) ->
  inspectionId r = Some docRef ->
  exists after doc,
    updateInspectionStatus reviewTime docRef status reviewNotes db'
    = (Serving after, true)
    /\ after !! docRef = Some doc
    /\ i_status doc = status
    /\ overallCondition (i_damageInspection doc)
       = determinOverallCondition (d_damages inspectionData)
                                  (d_checklistItems inspectionData).
Proof.
  unfold submitInspection.
  destruct (JS.falsy (d_vehicleId inspectionData) || _);
    [intros [= <- <-]; discriminate|].
  destruct db as [thrown|before]; [intros [= <- <-]; discriminate|].
  intros [= <- <-] [= <-].
  unfold updateInspectionStatus. rewrite lookup_insert_eq.
  eexists. eexists. split; [reflexivity|].
  split; [apply lookup_insert_eq|]. cbn. auto.
Qed.

End Review.

(** ** The vehicle history *)

Section History.
Import VehicleHistory.

(** X15: [getVehicleHistory] returns nothing exactly when the read of the
    vehicle document throws or finds no document.  A failure of any other
    read does not fail the history: when the trips cannot be read, the
    history reports no trip, no distance, no previous driver and an
    efficiency of 0. *)
Theorem getVehicleHistory_resilient (db : Firestore) (vehicleId : string) :
  (getVehicleHistory db vehicleId = None
   <-> getVehicleDoc db vehicleId = Throws
       \/ getVehicleDoc db vehicleId = Returns None)
  /\ (forall data,
         getVehicleDoc db vehicleId = Returns (Some data) ->
         exists history,
           getVehicleHistory db vehicleId = Some history
           /\ vehicle history = data
           /\ totalTrips history = length (recentTrips history)
           /\ (queryTrips db vehicleId 10 = Throws ->
               recentTrips history = []
               /\ totalTrips history = 0%nat
               /\ totalDistance history = QArith_base.inject_Z 0
               /\ averageFuelEfficiency history = QArith_base.inject_Z 0
               /\ previousDriver history = None)
           /\ (queryServiceRecords db vehicleId 1 = Throws ->
               lastServiceRecord history = None)
           /\ (queryLatestLocation db vehicleId = Throws ->
               currentLocation history = None)).
Proof.
  unfold getVehicleHistory.
  destruct (getVehicleDoc db vehicleId) as [|[data|]].
  - split; [tauto | intros ? [=]].
  - split; [split; [discriminate | intros [|]; discriminate]|].
    intros data' [= <-]. eexists. split; [reflexivity|]. cbn.
    split; [trivial|]. split; [trivial|].
    unfold getRecentTrips, getServiceRecords, getCurrentLocation.
    split; [|split]; intros ->; cbn; auto.
  - split; [tauto | intros ? [=]].
Qed.

Lemma total_zero (f : Trip -> option QArith_base.Q) (trips : list Trip)
    (start : QArith_base.Q) :
  Forall (fun t => QArith_base.Qeq (orZeroQ (f t)) (QArith_base.inject_Z 0))
         trips ->
  QArith_base.Qeq
    (fold_left (fun sum trip => QArith_base.Qplus sum (orZeroQ (f trip)))
               trips start)
    start.
Proof.
  intros H. revert start. induction H as [|t trips Ht _ IH]; intros start;
    cbn [fold_left].
  - apply QArith_base.Qeq_refl.
  - rewrite IH, Ht. apply QArith_base.Qplus_0_r.
Qed.

(** X16: the average fuel efficiency never divides by zero: it is 0 when
    no recent trip reports consumed fuel, and otherwise, when the total
    consumption is positive, it is the total distance over the total
    consumption. *)
Theorem getVehicleHistory_efficiency
    (db : Firestore) (vehicleId : string) (history : VehicleHistoryData) :
  getVehicleHistory db vehicleId = Some history ->
  let consumed := total trip_consumedLiters (recentTrips history) in
  (Forall (fun t => QArith_base.Qeq (orZeroQ (trip_consumedLiters t))
                                    (QArith_base.inject_Z 0))
          (recentTrips history) ->
   averageFuelEfficiency history = QArith_base.inject_Z 0)
  /\ (QArith_base.Qlt (QArith_base.inject_Z 0) consumed ->
      QArith_base.Qeq
        (QArith_base.Qmult (averageFuelEfficiency history) consumed)
        (totalDistance history))
  /\ (QArith_base.Qle consumed (QArith_base.inject_Z 0) ->
      averageFuelEfficiency history = QArith_base.inject_Z 0).
Proof.
  unfold getVehicleHistory.
  destruct (getVehicleDoc db vehicleId) as [|[data|]]; try discriminate.
  intros [= <-]. cbn [recentTrips averageFuelEfficiency totalDistance].
  set (trips := getRecentTrips db vehicleId 10).
  destruct (QArith_base.Qlt_le_dec _ _) as [Hpos|Hle].
  - split; [|split].
    + intros Hzero. exfalso.
      pose proof (total_zero trip_consumedLiters trips
                    (QArith_base.inject_Z 0) Hzero) as Hz.
      unfold total in Hpos. rewrite Hz in Hpos.
      now apply QArith_base.Qlt_irrefl in Hpos.
    + intros _. rewrite QArith_base.Qmult_comm.
      apply QArith_base.Qmult_div_r.
      intros Hz. rewrite Hz in Hpos.
      now apply QArith_base.Qlt_irrefl in Hpos.
    + intros Hle. exfalso.
      eapply QArith_base.Qlt_irrefl, QArith_base.Qlt_le_trans; eauto.
  - split; [trivial|]. split; [|trivial].
    intros Hpos. exfalso.
    eapply QArith_base.Qlt_irrefl, QArith_base.Qlt_le_trans; eauto.
Qed.

(** X17: [getTripsWithDrivers] returns the recent trips one for one and in
    their order, whether or not the drivers can be read; a driver name is
    never empty, and a trip whose driver is not found is labelled
    "Unknown Driver" with an empty email. *)
Theorem getTripsWithDrivers_labels
    (db : Firestore) (vehicleId : string) (limitCount : Z) :
  List.map trip (getTripsWithDrivers db vehicleId limitCount)
  = getRecentTrips db vehicleId limitCount
  /\ Forall
       (fun t =>
          driverName t <> ""
          /\ (getDriverInfo db (trip_driverId (trip t)) = None ->
              driverName t = "Unknown Driver" /\ driverEmail t = ""))
       (getTripsWithDrivers db vehicleId limitCount).
Proof.
  unfold getTripsWithDrivers. split.
  - rewrite List.map_map. cbn. apply List.map_id.
  - apply List.Forall_forall. intros t Hin.
    apply List.in_map_iff in Hin as (t0 & <- & _). cbn. split.
    + unfold orElse.
      destruct (getDriverInfo db (trip_driverId t0) ≫= displayName)
        as [[|c s]|]; cbn; discriminate.
    + intros ->. auto.
Qed.

End History.

(** ** Checkout: effects, failures and the prefilled form *)

Section CheckoutEffects.
Import Lumi VehicleCheckout.

(** What [handleCheckout] does once the required fields are there. *)
Lemma handleCheckout_filled
    (now : string) (toISO : string -> option string)
    (v : Vehicle.t) (s : State) (st : Store) :
  JS.falsy (selectedDriverId s) = false ->
  JS.falsy (startingMileage s) = false ->
  JS.falsy (destination s) = false ->
  JS.falsy (tripPurpose s) = false ->
  JS.falsy (signature s) = false ->
  handleCheckout now toISO v s st =
    match estimatedReturnDateOf toISO s with
    | None => (st, ToastError "Failed to check out vehicle")
    | Some date =>
        let i := fresh (dom (vehicle_assignments st)) in
        let created :=
          {| vehicles := vehicles st;
             vehicle_assignments :=
               <[i := Assignment.withId i
                        (CheckoutPage.assignmentOf now date v s)]>
                 (vehicle_assignments st);
             vehicle_inspections := vehicle_inspections st |} in
        match vehicles st !! Vehicle._id v with
        | Some old =>
            ({| vehicles :=
                  <[Vehicle._id v :=
                      Vehicle.merge (CheckoutPage.vehiclePatch now s) old]>
                    (vehicles st);
                vehicle_assignments := vehicle_assignments created;
                vehicle_inspections := vehicle_inspections st |},
             ToastSuccess "Vehicle checked out successfully")
        | None => (created, ToastError "Failed to check out vehicle")
        end
    end.
Proof.
  intros H1 H2 H3 H4 H5. unfold handleCheckout.
  rewrite H1, H2, H3, H4, H5. cbn [orb].
  destruct (estimatedReturnDateOf toISO s) as [date|]; [|reflexivity].
  cbn [createAssignment andThen]. unfold updateVehicle. cbn [vehicles].
  destruct (vehicles st !! Vehicle._id v); reflexivity.
Qed.

Lemma handleCheckout_validated
    (now : string) (toISO : string -> option string)
    (v : Vehicle.t) (s : State) (st st' : Store) (t : Toast) :
  handleCheckout now toISO v s st = (st', t) ->
  t <> ToastError "Please fill in all required fields" ->
  t <> ToastError "Digital signature is required" ->
  JS.falsy (selectedDriverId s) = false
  /\ JS.falsy (startingMileage s) = false
  /\ JS.falsy (destination s) = false
  /\ JS.falsy (tripPurpose s) = false
  /\ JS.falsy (signature s) = false.
Proof.
  unfold handleCheckout.
  destruct (JS.falsy (selectedDriverId s)), (JS.falsy (startingMileage s)),
           (JS.falsy (destination s)), (JS.falsy (tripPurpose s));
    cbn [orb]; try (intros [= _ <-] Hf _; now contradiction Hf).
  destruct (JS.falsy (signature s));
    [intros [= _ <-] _ Hf; now contradiction Hf | auto].
Qed.

(** The store that a successful checkout leaves. *)
Lemma handleCheckout_succeeded
    (now : string) (toISO : string -> option string)
    (v : Vehicle.t) (s : State) (st st' : Store) (message : string) :
  handleCheckout now toISO v s st = (st', ToastSuccess message) ->
  exists date old,
    estimatedReturnDateOf toISO s = Some date
    /\ vehicles st !! Vehicle._id v = Some old
    /\ st' =
       {| vehicles :=
            <[Vehicle._id v :=
                Vehicle.merge (CheckoutPage.vehiclePatch now s) old]>
              (vehicles st);
          vehicle_assignments :=
            <[fresh (dom (vehicle_assignments st)) :=
                Assignment.withId
                  (fresh (dom (vehicle_assignments st)))
                  (CheckoutPage.assignmentOf now date v s)]>
              (vehicle_assignments st);
          vehicle_inspections := vehicle_inspections st |}.
Proof.
  intros Hrun.
  destruct (handleCheckout_validated _ _ _ _ _ _ _ Hrun)
    as (H1 & H2 & H3 & H4 & H5); try discriminate.
  rewrite handleCheckout_filled in Hrun by trivial.
  destruct (estimatedReturnDateOf toISO s) as [date|]; [|discriminate].
  cbv zeta in Hrun.
  destruct (vehicles st !! Vehicle._id v) as [old|] eqn:Hold;
    [|discriminate].
  injection Hrun as <- _. exists date, old. auto.
Qed.

(** X18: a successful checkout changes the store in exactly two places:
    a new assignment, [active] and carrying the data of the form, appears
    under an identifier that was free, and the vehicle becomes [in_use]
    with the selected driver and the mileage and fuel read from the form;
    every other vehicle, every assignment that existed and all
    inspections are as before. *)
Theorem handleCheckout_effect
    (now : string) (toISO : string -> option string)
    (v : Vehicle.t) (s : State) (st st' : Store) (message : string) :
  handleCheckout now toISO v s st = (st', ToastSuccess message) ->
  exists i a old v',
    vehicle_assignments st !! i = None
    /\ vehicle_assignments st' !! i = Some a
    /\ Assignment._id a = i
    /\ Assignment.status a = "active"
    /\ Assignment.vehicleId a = Vehicle.vehicleId v
    /\ Assignment.driverId a = selectedDriverId s
    /\ Assignment.startingMileage a = JSParse.parseInt (startingMileage s)
    /\ (forall j, j <> i ->
                  vehicle_assignments st' !! j = vehicle_assignments st !! j)
    /\ vehicles st !! Vehicle._id v = Some old
    /\ vehicles st' !! Vehicle._id v = Some v'
    /\ Vehicle.status v' = "in_use"
    /\ Vehicle.currentDriverId v' = Some (selectedDriverId s)
    /\ Vehicle.currentMileage v' = JSParse.parseInt (startingMileage s)
    /\ Vehicle.fuelLevel v' = JSParse.parseInt (fuelLevel s)
    /\ (forall w, w <> Vehicle._id v -> vehicles st' !! w = vehicles st !! w)
    /\ vehicle_inspections st' = vehicle_inspections st.
Proof.
  intros Hrun.
  apply handleCheckout_succeeded in Hrun as (date & old & _ & Hold & ->).
  exists (fresh (dom (vehicle_assignments st))).
  eexists. exists old. eexists.
  cbn [vehicles vehicle_assignments vehicle_inspections].
  split; [apply not_elem_of_dom, is_fresh|].
  split; [apply lookup_insert_eq|].
  do 5 (split; [reflexivity|]).
  split; [intros j Hj; now apply lookup_insert_ne|].
  split; [exact Hold|].
  split; [apply lookup_insert_eq|].
  do 4 (split; [reflexivity|]).
  split; [intros w Hw; now apply lookup_insert_ne | reflexivity].
Qed.

(** X19: the checkout is not atomic.  When the vehicle document is gone
    from the store, the handler reports a failure and leaves the vehicles
    as they were, but the assignment it created first stays behind,
    [active]. *)
Theorem handleCheckout_orphan_assignment
    (now : string) (toISO : string -> option string)
    (v : Vehicle.t) (s : State) (st : Store) :
  buttonDisabled s = false ->
  is_Some (estimatedReturnDateOf toISO s) ->
  vehicles st !! Vehicle._id v = None ->
  exists st' i a,
    handleCheckout now toISO v s st
    = (st', ToastError "Failed to check out vehicle")
    /\ vehicles st' = vehicles st
    /\ vehicle_assignments st !! i = None
    /\ vehicle_assignments st' !! i = Some a
    /\ Assignment.status a = "active"
    /\ Assignment.vehicleId a = Vehicle.vehicleId v.
Proof.
  intros Hen [date Hdate] Hgone. unfold buttonDisabled in Hen.
  repeat (apply orb_false_elim in Hen as [Hen ?]).
  rewrite handleCheckout_filled by trivial.
  rewrite Hdate. cbv zeta. rewrite Hgone.
  eexists. exists (fresh (dom (vehicle_assignments st))). eexists.
  split; [reflexivity|]. cbn [vehicles vehicle_assignments].
  split; [reflexivity|].
  split; [apply not_elem_of_dom, is_fresh|].
  split; [apply lookup_insert_eq|]. split; reflexivity.
Qed.


End CheckoutEffects.

(** ** Checkin: effects, failures and edge cases *)

Section CheckinEffects.
Import Lumi VehicleCheckin.

(** What [handleCheckin] does once its own checks are passed. *)
Lemma handleCheckin_checked
    (now : string) (v : Vehicle.t) (s : State) (st : Store) :
  JS.falsy (endingMileage s) = false ->
  JS.falsy (signature s) = false ->
  JS.lt (JSParse.parseInt (endingMileage s))
        (Some (startMileageOf (currentAssignment s))) = false ->
  handleCheckin now v s st =
    match
      andThen
        match currentAssignment s with
        | Some a =>
            updateAssignment (Assignment._id a) (assignmentPatch now s) st
        | None => Done st
        end (fun st =>
      andThen (updateVehicle (Vehicle._id v) (vehiclePatch now s) st)
        (fun st =>
      if damageReported s
      then createInspection (inspectionRecord now v s) st
      else Done st))
    with
    | Done st' => (st', ToastSuccess "Vehicle checked in successfully")
    | Threw st' => (st', ToastError "Failed to check in vehicle")
    end.
Proof.
  intros He Hs Hlt. unfold handleCheckin. rewrite He, Hs, Hlt. reflexivity.
Qed.

(** X21: the checkin is not atomic either.  When the assignment can be
    closed but the vehicle document is gone, the handler reports a failure
    while the assignment is already [completed]; no vehicle changes and no
    inspection is created, even if damage was reported. *)
Theorem handleCheckin_closed_but_not_released
    (now : string) (v : Vehicle.t) (s : State) (st : Store)
    (a old : Assignment.t) :
  currentAssignment s = Some a ->
  vehicle_assignments st !! Assignment._id a = Some old ->
  vehicles st !! Vehicle._id v = None ->
  JS.falsy (endingMileage s) = false ->
  JS.falsy (signature s) = false ->
  JS.lt (JSParse.parseInt (endingMileage s))
        (Some (startMileageOf (currentAssignment s))) = false ->
  exists st' a',
    handleCheckin now v s st = (st', ToastError "Failed to check in vehicle")
    /\ vehicle_assignments st' !! Assignment._id a = Some a'
    /\ Assignment.status a' = "completed"
    /\ vehicles st' = vehicles st
    /\ vehicle_inspections st' = vehicle_inspections st.
Proof.
  intros Ha Hold Hgone He Hs Hlt.
  rewrite handleCheckin_checked by trivial.
  rewrite Ha. unfold updateAssignment. rewrite Hold. cbn [andThen].
  unfold updateVehicle. cbn [vehicles]. rewrite Hgone. cbn [andThen].
  eexists. eexists. split; [reflexivity|].
  cbn [vehicle_assignments vehicles vehicle_inspections].
  split; [apply lookup_insert_eq|]. auto.
Qed.

(** X22: without a current assignment the starting mileage counts as 0:
    a negative ending mileage is rejected and any other integer is
    accepted; the vehicle is released at that mileage and no assignment
    is touched. *)
Theorem handleCheckin_without_assignment
    (now : string) (v : Vehicle.t) (s : State) (st : Store) (e : Z) :
  currentAssignment s = None ->
  JSParse.parseInt (endingMileage s) = Some e ->
  JS.falsy (signature s) = false ->
  (e < 0 ->
   handleCheckin now v s st
   = (st, ToastError "Ending mileage cannot be less than starting mileage"))
  /\ (0 <= e ->
      is_Some (vehicles st !! Vehicle._id v) ->
      exists st' v',
        handleCheckin now v s st
        = (st', ToastSuccess "Vehicle checked in successfully")
        /\ vehicle_assignments st' = vehicle_assignments st
        /\ vehicles st' !! Vehicle._id v = Some v'
        /\ Vehicle.status v' = "available"
        /\ Vehicle.currentMileage v' = Some e).
Proof.
  intros Hnone He Hs.
  pose proof (parseInt_Some_nonempty _ _ He) as Hfilled.
  split.
  - intros Hneg. unfold handleCheckin.
    rewrite Hfilled, Hs, He, Hnone. cbn.
    destruct (Z.ltb_spec e 0); [reflexivity | lia].
  - intros Hpos [old Hold].
    rewrite handleCheckin_checked; trivial.
    + rewrite Hnone. cbn [andThen]. unfold updateVehicle. rewrite Hold.
      cbn [andThen].
      destruct (damageReported s); cbn [createInspection];
        eexists; eexists; (split; [reflexivity|]);
        cbn [vehicle_assignments vehicles];
        (split; [reflexivity|]);
        (split; [apply lookup_insert_eq|]); cbn; auto.
    + rewrite He, Hnone. cbn. apply Z.ltb_ge. exact Hpos.
Qed.

(** X23: a successful checkin creates a post-trip inspection exactly when
    damage is reported, with the condition and the description of the
    form; apart from that it changes the vehicle checked in and the
    current assignment and nothing else. *)
Theorem handleCheckin_inspection_and_frame
    (now : string) (v : Vehicle.t) (s : State) (st st' : Store)
    (message : string) :
  handleCheckin now v s st = (st', ToastSuccess message) ->
  (damageReported s = false ->
   vehicle_inspections st' = vehicle_inspections st)
  /\ (damageReported s = true ->
      exists i r,
        vehicle_inspections st !! i = None
        /\ vehicle_inspections st'
           = <[i := r]> (vehicle_inspections st)
        /\ Inspection.inspectionType r = "post_trip"
        /\ Inspection.vehicleId r = Vehicle.vehicleId v
        /\ Inspection.overallCondition r = vehicleCondition s
        /\ Inspection.notes r = damageDescription s
        /\ Inspection.inspectorId r = inspectorOf (currentAssignment s))
  /\ (forall w, w <> Vehicle._id v -> vehicles st' !! w = vehicles st !! w)
  /\ (forall j,
         Assignment._id <$> currentAssignment s <> Some j ->
         vehicle_assignments st' !! j = vehicle_assignments st !! j).
Proof.
  intros Hrun.
  apply handleCheckin_success in Hrun
    as (_ & _ & _ & st1 & st2 & H1 & H2 & H3).
  apply updateVehicle_Done in H2 as (old & Hold & Hv2 & Ha2 & Hi2).
  assert (E1 : vehicles st1 = vehicles st
               /\ vehicle_inspections st1 = vehicle_inspections st
               /\ forall j, Assignment._id <$> currentAssignment s <> Some j ->
                    vehicle_assignments st1 !! j
                    = vehicle_assignments st !! j).
  { destruct (currentAssignment s) as [a|].
    - apply updateAssignment_Done in H1 as (olda & _ & Ha1 & Hv1 & Hi1).
      repeat split; trivial. intros j Hj. rewrite Ha1.
      apply lookup_insert_ne. cbn in Hj. congruence.
    - injection H1 as <-. auto. }
  destruct E1 as (Hv1 & Hi1 & Ha1).
  assert (E3 : vehicles st' = vehicles st2
               /\ vehicle_assignments st' = vehicle_assignments st2).
  { destruct (damageReported s).
    - now apply createInspection_Done in H3.
    - injection H3 as <-. auto. }
  destruct E3 as (Hv3 & Ha3).
  split; [|split; [|split]].
  - intros Hd. rewrite Hd in H3. injection H3 as <-. congruence.
  - intros Hd. rewrite Hd in H3. unfold createInspection in H3.
    injection H3 as <-. cbn [vehicle_inspections].
    exists (fresh (dom (vehicle_inspections st2))). eexists.
    split; [rewrite <- Hi1, <- Hi2; apply not_elem_of_dom, is_fresh|].
    split; [rewrite Hi2, Hi1; reflexivity|]. cbn. auto.
  - intros w Hw. rewrite Hv3, Hv2, Hv1. now apply lookup_insert_ne.
  - intros j Hj. rewrite Ha3, Ha2. now apply Ha1.
Qed.

(** X24: an ending mileage that [parseInt] cannot read is not caught by
    the mileage check: with the documents in place the checkin goes
    through, the vehicle's mileage becomes [NaN] and so does the total
    mileage of the closed assignment. *)
Theorem handleCheckin_unreadable_mileage
    (now : string) (v : Vehicle.t) (s : State) (st : Store)
    (a : Assignment.t) :
  JSParse.parseInt (endingMileage s) = None ->
  JS.falsy (endingMileage s) = false ->
  JS.falsy (signature s) = false ->
  currentAssignment s = Some a ->
  is_Some (vehicles st !! Vehicle._id v) ->
  is_Some (vehicle_assignments st !! Assignment._id a) ->
  exists st' v' a' p,
    handleCheckin now v s st
    = (st', ToastSuccess "Vehicle checked in successfully")
    /\ vehicles st' !! Vehicle._id v = Some v'
    /\ Vehicle.status v' = "available"
    /\ Vehicle.currentMileage v' = None
    /\ vehicle_assignments st' !! Assignment._id a = Some a'
    /\ Assignment.status a' = "completed"
    /\ Assignment.checkin a' = Some p
    /\ Assignment.endingMileage p = None
    /\ Assignment.totalMileage p = None.
Proof.
  intros Hnan He Hs Ha Hv Hdoc.
  destruct (handleCheckin_accepts now v s st) as [st' Hrun]; trivial.
  - now rewrite Hnan.
  - intros a0 Ha0. rewrite Ha in Ha0. now injection Ha0 as <-.
  - destruct (handleCheckin_vehicle _ _ _ _ _ _ Hrun) as (old & _ & Hnew).
    destruct (handleCheckin_assignment _ _ _ _ _ _ _ Ha Hrun)
      as (olda & _ & Hnewa).
    exists st'. eexists. eexists. eexists.
    split; [exact Hrun|]. split; [exact Hnew|].
    split; [reflexivity|]. split; [cbn; exact Hnan|].
    split; [exact Hnewa|]. split; [reflexivity|]. split; [reflexivity|].
    unfold assignmentPatch. cbn. rewrite Hnan. auto.
Qed.

(** X25: when the vehicle held by the page is not [in_use], a checkin
    attempt is refused whatever the form contains and the store is left as
    it was; once the page has loaded the refusal is the "Vehicle Not In
    Use" screen. *)
Theorem attemptCheckin_refused_unless_in_use
    (now : string) (loading : bool) (s : State) (st : Store)
    (v : Vehicle.t) :
  vehicle s = Some v ->
  Vehicle.status v <> "in_use" ->
  (exists shown,
      CheckinPage.attemptCheckin now loading s st
      = (st, CheckinPage.Refused shown))
  /\ (loading = false ->
      CheckinPage.attemptCheckin now loading s st
      = (st, CheckinPage.Refused VehicleNotInUse)).
Proof.
  intros Hv Hstatus.
  assert (Hrender : render loading s
                    = if loading then Loading else VehicleNotInUse).
  { unfold render. rewrite Hv.
    destruct (String.eqb_spec (Vehicle.status v) "in_use");
      [contradiction | reflexivity]. }
  unfold CheckinPage.attemptCheckin. rewrite Hrender.
  destruct loading; split; eauto; discriminate.
Qed.

(** X26: the trip distance shown next to the form is the total mileage
    that the checkin records on the assignment, and for a checkin that
    goes through it is never negative. *)
Theorem calculateTripDistance_is_recorded
    (now : string) (v : Vehicle.t) (s : State) (st st' : Store)
    (a : Assignment.t) (message : string) :
  currentAssignment s = Some a ->
  handleCheckin now v s st = (st', ToastSuccess message) ->
  CheckinPage.calculateTripDistance s
  = Assignment.totalMileage (assignmentPatch now s)
  /\ (exists a' p,
         vehicle_assignments st' !! Assignment._id a = Some a'
         /\ Assignment.checkin a' = Some p
         /\ Assignment.totalMileage p = CheckinPage.calculateTripDistance s)
  /\ (forall d, CheckinPage.calculateTripDistance s = Some d -> 0 <= d).
Proof.
  intros Ha Hrun.
  pose proof (handleCheckin_success _ _ _ _ _ _ Hrun)
    as (He & _ & Hlt & _).
  assert (Hcalc : CheckinPage.calculateTripDistance s
                  = Assignment.totalMileage (assignmentPatch now s)).
  { unfold CheckinPage.calculateTripDistance, assignmentPatch,
      startMileageOf.
    rewrite Ha, He. reflexivity. }
  split; [exact Hcalc|]. split.
  - destruct (handleCheckin_assignment _ _ _ _ _ _ _ Ha Hrun)
      as (old & _ & Hnew).
    eexists. eexists. split; [exact Hnew|]. split; [reflexivity|].
    now rewrite Hcalc.
  - intros d. rewrite Hcalc. unfold assignmentPatch. cbn.
    destruct (JSParse.parseInt (endingMileage s)) as [e|]; [|discriminate].
    cbn in *. intros [= <-]. apply Z.ltb_ge in Hlt. lia.
Qed.

End CheckinEffects.

(** ** The pages as a whole *)

Section Pages.
Import Lumi.

(** X27: the buttons do the field validation.  A handler that runs from
    the page never shows the required-fields or the signature toast: a
    checkout ends in success or in the failure toast, a checkin in
    success, the failure toast or the mileage error; and a checkin that
    reports damage without describing it changes nothing. *)
Theorem page_validation_is_in_the_buttons :
  (forall now toISO loading s st st' t,
      VehicleCheckout.attemptCheckout now toISO loading s st
      = (st', VehicleCheckout.Handled t) ->
      t = ToastSuccess "Vehicle checked out successfully"
      \/ t = ToastError "Failed to check out vehicle")
  /\ (forall now loading s st st' t,
         CheckinPage.attemptCheckin now loading s st
         = (st', CheckinPage.Handled t) ->
         t = ToastSuccess "Vehicle checked in successfully"
         \/ t = ToastError "Failed to check in vehicle"
         \/ t = ToastError
                  "Ending mileage cannot be less than starting mileage")
  /\ (forall now loading s st,
         VehicleCheckin.damageReported s = true ->
         JS.falsy (VehicleCheckin.damageDescription s) = true ->
         fst (CheckinPage.attemptCheckin now loading s st) = st).
Proof.
  split; [|split].
  - intros now toISO loading s st st' t.
    unfold VehicleCheckout.attemptCheckout.
    destruct (VehicleCheckout.render loading s) as [| | |v];
      try discriminate.
    destruct (VehicleCheckout.buttonDisabled s) eqn:Hen; [discriminate|].
    unfold VehicleCheckout.buttonDisabled in Hen.
    repeat (apply orb_false_elim in Hen as [Hen ?]).
    rewrite handleCheckout_filled by trivial.
    destruct (VehicleCheckout.estimatedReturnDateOf toISO s);
      [|intros [= _ <-]; auto].
    cbv zeta. destruct (vehicles st !! Vehicle._id v);
      intros [= _ <-]; auto.
  - intros now loading s st st' t.
    unfold CheckinPage.attemptCheckin.
    destruct (VehicleCheckin.render loading s) as [| | |v];
      try discriminate.
    destruct (VehicleCheckin.buttonDisabled s) eqn:Hen; [discriminate|].
    unfold VehicleCheckin.buttonDisabled in Hen.
    repeat (apply orb_false_elim in Hen as [Hen ?]).
    unfold VehicleCheckin.handleCheckin.
    repeat match goal with
           | H : JS.falsy _ = false |- _ => rewrite H; clear H
           end.
    cbn [orb]. destruct (JS.lt _ _); [intros [= _ <-]; auto|].
    destruct (andThen _ _); intros [= _ <-]; auto.
  - intros now loading s st Hd He.
    unfold CheckinPage.attemptCheckin, VehicleCheckin.buttonDisabled.
    rewrite Hd, He. rewrite !orb_true_r.
    destruct (VehicleCheckin.render loading s); reflexivity.
Qed.

(** X28: a checkout that succeeded can always be checked in.  Against the
    assignment it created, a signed checkin whose ending mileage is not
    below the starting one succeeds: the vehicle is [available] again with
    no driver and the ending mileage, and the assignment is [completed]
    with the difference as total mileage. *)
Theorem checkout_then_checkin_succeeds
    (now now' : string) (toISO : string -> option string)
    (v : Vehicle.t) (s : VehicleCheckout.State) (st st1 : Store)
    (message : string)
    (v1 : Vehicle.t) (s' : VehicleCheckin.State) (a : Assignment.t)
    (start e : Z) :
  VehicleCheckout.handleCheckout now toISO v s st
  = (st1, ToastSuccess message) ->
  JSParse.parseInt (VehicleCheckout.startingMileage s) = Some start ->
  Vehicle._id v1 = Vehicle._id v ->
  VehicleCheckin.currentAssignment s' = Some a ->
  vehicle_assignments st1 !! Assignment._id a = Some a ->
  vehicle_assignments st !! Assignment._id a = None ->
  JSParse.parseInt (VehicleCheckin.endingMileage s') = Some e ->
  JS.falsy (VehicleCheckin.signature s') = false ->
  start <= e ->
  exists st2 v2 a2 p,
    VehicleCheckin.handleCheckin now' v1 s' st1
    = (st2, ToastSuccess "Vehicle checked in successfully")
    /\ vehicles st2 !! Vehicle._id v = Some v2
    /\ Vehicle.status v2 = "available"
    /\ Vehicle.currentDriverId v2 = Some ""
    /\ Vehicle.currentMileage v2 = Some e
    /\ vehicle_assignments st2 !! Assignment._id a = Some a2
    /\ Assignment.status a2 = "completed"
    /\ Assignment.driverId a2 = VehicleCheckout.selectedDriverId s
    /\ Assignment.checkin a2 = Some p
    /\ Assignment.totalMileage p = Some (e - start).
Proof.
  intros Hout Hstart Hid Ha Hstored Hnew He Hsig Hle.
  apply handleCheckout_succeeded in Hout as (date & old & _ & Hold & Hst1).
  set (i := fresh (dom (vehicle_assignments st))) in Hst1.
  assert (Has : vehicle_assignments st1
                = <[i := Assignment.withId i
                           (CheckoutPage.assignmentOf now date v s)]>
                    (vehicle_assignments st))
    by (rewrite Hst1; reflexivity).
  assert (Hv' : is_Some (vehicles st1 !! Vehicle._id v))
    by (rewrite Hst1; cbn [vehicles]; rewrite lookup_insert_eq; eauto).
  assert (Hai : Assignment._id a = i).
  { destruct (decide (Assignment._id a = i)) as [|Hne]; trivial.
    rewrite Has, lookup_insert_ne, Hnew in Hstored by congruence.
    discriminate. }
  assert (Hcreated : a = Assignment.withId i
                           (CheckoutPage.assignmentOf now date v s)).
  { pose proof Hstored as H. rewrite Has, Hai, lookup_insert_eq in H.
    congruence. }
  assert (Hdriver : Assignment.driverId a
                    = VehicleCheckout.selectedDriverId s)
    by (rewrite Hcreated; reflexivity).
  assert (Hsm : Assignment.startingMileage a
                = JSParse.parseInt (VehicleCheckout.startingMileage s))
    by (rewrite Hcreated; reflexivity).
  clear Hcreated Hst1.
  assert (Hs : VehicleCheckin.startMileageOf
                 (VehicleCheckin.currentAssignment s') = start).
  { unfold VehicleCheckin.startMileageOf. rewrite Ha. cbn.
    now rewrite Hsm, Hstart. }
  destruct (handleCheckin_accepts now' v1 s' st1) as [st2 Hin].
  - eapply parseInt_Some_nonempty; eauto.
  - exact Hsig.
  - rewrite He, Hs. cbn. now apply Z.ltb_ge.
  - rewrite Hid. exact Hv'.
  - intros a1 Ha1. rewrite Ha in Ha1. injection Ha1 as <-.
    rewrite Hstored. eauto.
  - destruct (handleCheckin_vehicle _ _ _ _ _ _ Hin) as (oldv & _ & Hnewv).
    destruct (handleCheckin_assignment _ _ _ _ _ _ _ Ha Hin)
      as (olda & Holda & Hnewa).
    rewrite Hstored in Holda. injection Holda as <-.
    exists st2. eexists. eexists. eexists.
    split; [exact Hin|]. rewrite <- Hid.
    split; [exact Hnewv|]. split; [reflexivity|]. split; [reflexivity|].
    split; [cbn; exact He|].
    split; [exact Hnewa|].
    split; [reflexivity|]. split; [cbn; exact Hdriver|].
    split; [reflexivity|].
    unfold VehicleCheckin.assignmentPatch. cbn. rewrite He, Hs. reflexivity.
Qed.

End Pages.

(** ** The [useVehicles] hook *)

Section Hook.
Import Lumi UseVehicles.

(** X29: [updateVehicle] keeps the [vehicles] state of the hook in step
    with the store: if every listed vehicle was the stored document before
    the update, it is so after it, whether the update succeeds or not; an
    update of an unknown vehicle changes neither and rethrows. *)
Theorem updateVehicle_keeps_in_sync
    (now vehicleId : string) (u : updates)
    (st : Store) (hook : list Vehicle.t) :
  inSync st hook ->
  let r := updateVehicle now vehicleId u st hook in
  inSync (store r) (vehicles r)
  /\ length (vehicles r) = length hook
  /\ (Lumi.vehicles st !! vehicleId = None ->
      store r = st /\ vehicles r = hook /\ returned r = None
      /\ toast r = ToastError "Failed to update vehicle").
Proof.
  intros Hsync r. subst r. unfold updateVehicle.
  destruct (Lumi.vehicles st !! vehicleId) as [v|] eqn:Hv;
    cbn [store vehicles returned toast].
  - split; [|split; [apply List.length_map | discriminate]].
    intros w Hw. apply List.in_map_iff in Hw as (w0 & Hw0 & Hin).
    cbn [Lumi.vehicles].
    destruct (String.eqb_spec (Vehicle._id w0) vehicleId) as [Heq|Hne].
    + subst w. pose proof (Hsync _ Hin) as Hw0.
      rewrite Heq, Hv in Hw0. injection Hw0 as ->.
      cbn. rewrite Heq. apply lookup_insert_eq.
    + subst w. rewrite lookup_insert_ne by congruence. now apply Hsync.
  - split; [exact Hsync|]. split; [reflexivity | auto].
Qed.

(** X30: releasing a vehicle after assigning it a driver returns it to
    [available] with an empty driver reference and leaves its mileage and
    fuel level untouched, as they were before the assignment. *)
Theorem assignDriver_then_releaseVehicle
    (now now' vehicleId driverId : string)
    (st : Store) (hook : list Vehicle.t) (v : Vehicle.t) :
  Lumi.vehicles st !! vehicleId = Some v ->
  let assigned := assignDriver now vehicleId driverId st hook in
  let released :=
    releaseVehicle now' vehicleId (store assigned) (vehicles assigned) in
  (exists v1,
      Lumi.vehicles (store assigned) !! vehicleId = Some v1
      /\ Vehicle.status v1 = "in_use"
      /\ Vehicle.currentDriverId v1 = Some driverId)
  /\ (exists v2,
         Lumi.vehicles (store released) !! vehicleId = Some v2
         /\ returned released = Some v2
         /\ Vehicle.status v2 = "available"
         /\ Vehicle.currentDriverId v2 = Some ""
         /\ Vehicle.currentMileage v2 = Vehicle.currentMileage v
         /\ Vehicle.fuelLevel v2 = Vehicle.fuelLevel v)
  /\ (forall w, w <> vehicleId ->
                Lumi.vehicles (store released) !! w = Lumi.vehicles st !! w).
Proof.
  intros Hv assigned released. subst released assigned.
  unfold releaseVehicle, assignDriver, updateVehicle.
  rewrite Hv. cbn [store vehicles Lumi.vehicles].
  rewrite lookup_insert_eq. cbn [store vehicles Lumi.vehicles returned].
  split; [|split].
  - eexists. split; [reflexivity|]. cbn. auto.
  - eexists. split; [apply lookup_insert_eq|]. cbn. auto.
  - intros w Hw. rewrite !lookup_insert_ne by congruence. reflexivity.
Qed.

End Hook.

(** ** The properties at work on concrete inputs *)

Section Instances.
Import Lumi.

Lemma determinOverallCondition_order_irrelevant_witness :
  InspectionService.determinOverallCondition
    [Samples.dentedBumper; Samples.severedBrakeLine]
    [Samples.failedLights; Samples.passedTyres]
  = InspectionService.determinOverallCondition
      [Samples.severedBrakeLine; Samples.dentedBumper]
      [Samples.passedTyres; Samples.failedLights].
Proof.
  apply determinOverallCondition_order_irrelevant; apply perm_swap.
Defined.

Lemma repairRequired_rates_poor_or_worse_witness :
  (Assessor.rank InspectionService.Poor
   <= Assessor.rank
        (InspectionService.determinOverallCondition
           [Samples.dentedBumper; Samples.severedBrakeLine]
           [Samples.passedTyres]))%nat.
Proof.
  apply (repairRequired_rates_poor_or_worse
           1714550400500 "p7w2c8d4z" "brakes" true
           (Some InspectionService.SevCritical)
           (Some "Brake line severed") None).
  - reflexivity.
  - right. left. reflexivity.
Defined.

Lemma submitInspection_stores_witness :
  exists docRef after doc,
    fst (InspectionRecords.submitInspection
           1714550401000 Samples.clock Samples.inspectionData
           Samples.emptyInspections)
    = InspectionRecords.Serving after
    /\ after !! docRef = Some doc
    /\ InspectionRecords.overallCondition
         (InspectionRecords.i_damageInspection doc)
       = InspectionService.Damaged.
Proof.
  destruct (submitInspection_stores
              1714550401000 Samples.clock Samples.inspectionData
              Samples.emptyInspections _ _ eq_refl eq_refl)
    as (docRef & before & after & doc & _ & Hafter & _ & _ & Hdoc & _ & _
        & _ & _ & Hcond & _).
  exists docRef, after, doc.
  split; [exact Hafter|]. split; [exact Hdoc|].
  rewrite Hcond. reflexivity.
Defined.

Lemma parseInt_toString_witness :
  JSParse.parseInt (JSNumber.toString (Some 45000)) = Some 45000
  /\ JSParse.parseInt (JSNumber.toString None) = None.
Proof.
  split.
  - apply (parseInt_toString (Some 45000)). cbn. lia.
  - apply (parseInt_toString None). exact I.
Defined.

Lemma submitInspection_then_review_witness :
  exists after doc,
    InspectionRecords.updateInspectionStatus
      1714550500000 "0" "reviewed" (Some "Brakes must be repaired")
      (fst (InspectionRecords.submitInspection
              1714550401000 Samples.clock Samples.inspectionData
              Samples.emptyInspections))
    = (InspectionRecords.Serving after, true)
    /\ after !! "0" = Some doc
    /\ InspectionRecords.i_status doc = "reviewed".
Proof.
  destruct (submitInspection_then_review
              1714550401000 1714550500000 Samples.clock
              Samples.inspectionData Samples.emptyInspections _ _
              "0" "reviewed" (Some "Brakes must be repaired")
              eq_refl eq_refl)
    as (after & doc & Hrun & Hdoc & Hstatus & _).
  exists after, doc. auto.
Defined.

Lemma getVehicleHistory_efficiency_witness :
  exists history,
    VehicleHistory.getVehicleHistory Samples.historyStore "AFG7557"
    = Some history
    /\ QArith_base.Qeq
         (QArith_base.Qmult
            (VehicleHistory.averageFuelEfficiency history)
            (VehicleHistory.total VehicleHistory.trip_consumedLiters
                                  (VehicleHistory.recentTrips history)))
         (VehicleHistory.totalDistance history).
Proof.
  eexists. split; [reflexivity|].
  apply (getVehicleHistory_efficiency
           Samples.historyStore "AFG7557" _ eq_refl).
  reflexivity.
Defined.

Lemma handleCheckout_effect_witness :
  exists st' v',
    VehicleCheckout.handleCheckout
      Fleet.now Some Fleet.availableVehicle
      (Fleet.checkoutForm Fleet.availableVehicle) Fleet.storeBeforeCheckout
    = (st', ToastSuccess "Vehicle checked out successfully")
    /\ vehicles st' !! "veh-1" = Some v'
    /\ Vehicle.status v' = "in_use"
    /\ vehicle_inspections st' = ∅.
Proof.
  eexists.
  destruct (handleCheckout_effect
              Fleet.now Some Fleet.availableVehicle
              (Fleet.checkoutForm Fleet.availableVehicle)
              Fleet.storeBeforeCheckout _ _ eq_refl)
    as (i & a & old & v' & _ & _ & _ & _ & _ & _ & _ & _ & _ & Hv & Hs
        & _ & _ & _ & _ & Hi).
  exists v'. split; [reflexivity|]. auto.
Defined.

Lemma handleCheckout_orphan_assignment_witness :
  exists st' i a,
    VehicleCheckout.handleCheckout
      Fleet.now Some Fleet.availableVehicle
      (Fleet.checkoutForm Fleet.availableVehicle)
      Samples.storeWithoutVehicle
    = (st', ToastError "Failed to check out vehicle")
    /\ vehicle_assignments st' !! i = Some a
    /\ Assignment.status a = "active".
Proof.
  destruct (handleCheckout_orphan_assignment
              Fleet.now Some Fleet.availableVehicle
              (Fleet.checkoutForm Fleet.availableVehicle)
              Samples.storeWithoutVehicle)
    as (st' & i & a & Hrun & _ & _ & Ha & Hs & _).
  - reflexivity.
  - eexists. reflexivity.
  - reflexivity.
  - exists st', i, a. auto.
Defined.


Lemma handleCheckin_closed_but_not_released_witness :
  exists st' a',
    VehicleCheckin.handleCheckin
      Fleet.now Fleet.vehicleInUse Fleet.checkinFormCriticalDamage
      Samples.storeWithAssignmentOnly
    = (st', ToastError "Failed to check in vehicle")
    /\ vehicle_assignments st' !! "asg-1" = Some a'
    /\ Assignment.status a' = "completed"
    /\ vehicle_inspections st' = ∅.
Proof.
  destruct (handleCheckin_closed_but_not_released
              Fleet.now Fleet.vehicleInUse Fleet.checkinFormCriticalDamage
              Samples.storeWithAssignmentOnly
              Fleet.activeAssignment Fleet.activeAssignment)
    as (st' & a' & Hrun & Ha & Hs & _ & Hi);
    try reflexivity.
  exists st', a'. auto.
Defined.

Lemma handleCheckin_without_assignment_witness :
  VehicleCheckin.handleCheckin
    Fleet.now Fleet.vehicleInUse (Samples.checkinWithoutAssignment "-5")
    Fleet.storeDuringTrip
  = (Fleet.storeDuringTrip,
     ToastError "Ending mileage cannot be less than starting mileage")
  /\ exists st',
       VehicleCheckin.handleCheckin
         Fleet.now Fleet.vehicleInUse (Samples.checkinWithoutAssignment "12")
         Fleet.storeDuringTrip
       = (st', ToastSuccess "Vehicle checked in successfully")
       /\ vehicle_assignments st' = vehicle_assignments Fleet.storeDuringTrip.
Proof.
  split.
  - apply (handleCheckin_without_assignment
             Fleet.now Fleet.vehicleInUse
             (Samples.checkinWithoutAssignment "-5") Fleet.storeDuringTrip
             (-5) eq_refl eq_refl eq_refl).
    lia.
  - destruct (handleCheckin_without_assignment
                Fleet.now Fleet.vehicleInUse
                (Samples.checkinWithoutAssignment "12") Fleet.storeDuringTrip
                12 eq_refl eq_refl eq_refl) as [_ Hok].
    destruct Hok as (st' & v' & Hrun & Ha & _).
    + lia.
    + eexists. reflexivity.
    + exists st'. auto.
Defined.

Lemma handleCheckin_inspection_and_frame_witness :
  exists st' i r,
    VehicleCheckin.handleCheckin
      Fleet.now Fleet.vehicleInUse Fleet.checkinFormCriticalDamage
      Fleet.storeDuringTrip
    = (st', ToastSuccess "Vehicle checked in successfully")
    /\ vehicle_inspections st' = <[i := r]> ∅
    /\ Inspection.overallCondition r = CondPoor
    /\ Inspection.inspectorId r = "D1".
Proof.
  eexists.
  destruct (handleCheckin_inspection_and_frame
              Fleet.now Fleet.vehicleInUse Fleet.checkinFormCriticalDamage
              Fleet.storeDuringTrip _ _ eq_refl) as (_ & Hcreated & _).
  destruct (Hcreated eq_refl)
    as (i & r & _ & Hi & _ & _ & Hc & _ & Hinsp).
  exists i, r. split; [reflexivity|]. auto.
Defined.

Lemma handleCheckin_unreadable_mileage_witness :
  exists st' v',
    VehicleCheckin.handleCheckin
      Fleet.now Fleet.vehicleInUse (Fleet.checkinForm ".5")
      Fleet.storeDuringTrip
    = (st', ToastSuccess "Vehicle checked in successfully")
    /\ vehicles st' !! "veh-1" = Some v'
    /\ Vehicle.currentMileage v' = None.
Proof.
  destruct (handleCheckin_unreadable_mileage
              Fleet.now Fleet.vehicleInUse (Fleet.checkinForm ".5")
              Fleet.storeDuringTrip Fleet.activeAssignment)
    as (st' & v' & a' & p & Hrun & Hv & _ & Hm & _);
    try reflexivity; try (eexists; reflexivity).
  exists st', v'. auto.
Defined.

Lemma attemptCheckin_refused_unless_in_use_witness :
  CheckinPage.attemptCheckin
    Fleet.now false
    {| VehicleCheckin.vehicle := Some Fleet.availableVehicle;
       VehicleCheckin.currentAssignment := None;
       VehicleCheckin.endingMileage := "45120";
       VehicleCheckin.fuelLevel := "55";
       VehicleCheckin.vehicleCondition := CondGood;
       VehicleCheckin.damageReported := false;
       VehicleCheckin.damageDescription := "";
       VehicleCheckin.tripNotes := "";
       VehicleCheckin.signature := "D1";
       VehicleCheckin.submitting := false |}
    Fleet.storeBeforeCheckout
  = (Fleet.storeBeforeCheckout,
     CheckinPage.Refused VehicleCheckin.VehicleNotInUse).
Proof.
  match goal with
  | |- CheckinPage.attemptCheckin _ _ ?s _ = _ =>
      destruct (attemptCheckin_refused_unless_in_use
                  Fleet.now false s Fleet.storeBeforeCheckout
                  Fleet.availableVehicle eq_refl) as [_ Hshown]
  end.
  - discriminate.
  - apply Hshown. reflexivity.
Defined.

Lemma calculateTripDistance_is_recorded_witness :
  CheckinPage.calculateTripDistance (Fleet.checkinForm "45120") = Some 120.
Proof.
  destruct (calculateTripDistance_is_recorded
              Fleet.now Fleet.vehicleInUse (Fleet.checkinForm "45120")
              Fleet.storeDuringTrip _ Fleet.activeAssignment _
              eq_refl eq_refl) as (Hcalc & _).
  rewrite Hcalc. reflexivity.
Defined.

Lemma checkout_then_checkin_succeeds_witness :
  exists st1 a st2 v2,
    VehicleCheckout.handleCheckout
      Fleet.now Some Fleet.availableVehicle
      (Fleet.checkoutForm Fleet.availableVehicle) Fleet.storeBeforeCheckout
    = (st1, ToastSuccess "Vehicle checked out successfully")
    /\ vehicle_assignments st1 !! "0" = Some a
    /\ VehicleCheckin.handleCheckin
         Fleet.now Fleet.vehicleInUse
         {| VehicleCheckin.vehicle := Some Fleet.vehicleInUse;
            VehicleCheckin.currentAssignment := Some a;
            VehicleCheckin.endingMileage := "45120";
            VehicleCheckin.fuelLevel := "55";
            VehicleCheckin.vehicleCondition := CondGood;
            VehicleCheckin.damageReported := false;
            VehicleCheckin.damageDescription := "";
            VehicleCheckin.tripNotes := "";
            VehicleCheckin.signature := "D1";
            VehicleCheckin.submitting := false |}
         st1
       = (st2, ToastSuccess "Vehicle checked in successfully")
    /\ vehicles st2 !! "veh-1" = Some v2
    /\ Vehicle.status v2 = "available".
Proof.
  eexists. eexists. 
  match goal with
  | |- exists st2 v2, ?H1 /\ ?H2 /\ _ =>
      assert (E1 : H1) by reflexivity;
      assert (E2 : H2) by (vm_compute; reflexivity)
  end.
  match type of E2 with
  | _ = Some ?a =>
      destruct (checkout_then_checkin_succeeds
                  Fleet.now Fleet.now Some Fleet.availableVehicle
                  (Fleet.checkoutForm Fleet.availableVehicle)
                  Fleet.storeBeforeCheckout _ _ Fleet.vehicleInUse
                  {| VehicleCheckin.vehicle := Some Fleet.vehicleInUse;
                     VehicleCheckin.currentAssignment := Some a;
                     VehicleCheckin.endingMileage := "45120";
                     VehicleCheckin.fuelLevel := "55";
                     VehicleCheckin.vehicleCondition := CondGood;
                     VehicleCheckin.damageReported := false;
                     VehicleCheckin.damageDescription := "";
                     VehicleCheckin.tripNotes := "";
                     VehicleCheckin.signature := "D1";
                     VehicleCheckin.submitting := false |}
                  a 45000 45120 E1)
        as (st2 & v2 & a2 & p & Hin & Hv & Hs & _)
  end; try reflexivity; try lia.
  exists st2, v2. auto.
Defined.

Lemma updateVehicle_keeps_in_sync_witness :
  UseVehicles.inSync
    (UseVehicles.store
       (UseVehicles.updateVehicleStatus
          Fleet.now "veh-1" "maintenance"
          Fleet.storeBeforeCheckout [Fleet.availableVehicle]))
    (UseVehicles.vehicles
       (UseVehicles.updateVehicleStatus
          Fleet.now "veh-1" "maintenance"
          Fleet.storeBeforeCheckout [Fleet.availableVehicle])).
Proof.
  apply (updateVehicle_keeps_in_sync
           Fleet.now "veh-1"
           {| UseVehicles.u_status := Some "maintenance";
              UseVehicles.u_currentDriverId := None;
              UseVehicles.u_currentMileage := None;
              UseVehicles.u_fuelLevel := None |}
           Fleet.storeBeforeCheckout [Fleet.availableVehicle]).
  intros v [<-|[]]. reflexivity.
Defined.

Lemma assignDriver_then_releaseVehicle_witness :
  exists v2,
    vehicles
      (UseVehicles.store
         (UseVehicles.releaseVehicle
            Fleet.now "veh-1"
            (UseVehicles.store
               (UseVehicles.assignDriver
                  Fleet.now "veh-1" "D1"
                  Fleet.storeBeforeCheckout [Fleet.availableVehicle]))
            (UseVehicles.vehicles
               (UseVehicles.assignDriver
                  Fleet.now "veh-1" "D1"
                  Fleet.storeBeforeCheckout [Fleet.availableVehicle]))))
    !! "veh-1" = Some v2
    /\ Vehicle.status v2 = "available"
    /\ Vehicle.currentDriverId v2 = Some ""
    /\ Vehicle.currentMileage v2 = Some 45000.
Proof.
  destruct (assignDriver_then_releaseVehicle
              Fleet.now Fleet.now "veh-1" "D1"
              Fleet.storeBeforeCheckout [Fleet.availableVehicle]
              Fleet.availableVehicle eq_refl)
    as (_ & (v2 & Hv & _ & Hs & Hd & Hm & _) & _).
  exists v2. auto.
Defined.

End Instances.
